(** * wpt.fyi [api/metadata_handler.go]: metadata lookup and triage handlers

    A shallow embedding of the Go handlers of [api/metadata_handler.go]
    and the properties of the link filter, the cache-key derivation and
    the triage authorization pipeline.

    Go values are modelled as follows.
    - [string] is a byte sequence: Rocq's [string] (a list of 8-bit
      [ascii]); [error] is represented by its [Error()] text.
    - [shared.MetadataResults] is [map[string]MetadataLinks]: a
      [gmap string (list MetadataLink)].  Go maps are references, so the
      frame properties of [filterMetadata] are stated over a store of map
      objects ([Heap]).
    - [*http.Request] and [http.ResponseWriter] are mutable objects: their
      contents are threaded through the handlers as explicit state.
    - Calls to collaborators outside this file (session store, secret
      store, remote hosting API, metadata fetch, JSON codec) are answered
      by an environment record [Env], and every such call is appended to
      a log so that the order and absence of calls can be stated. *)

From stdpp Require Import base option list gmap fin_maps strings.

Open Scope string_scope.
Open Scope list_scope.
Open Scope stdpp_scope.

(** ** [strings.HasPrefix] and [strings.Contains] *)

Fixpoint HasPrefix (s prefix : string) {struct prefix} : bool :=
  match prefix with
  | EmptyString => true
  | String c prefix' =>
      match s with
      | EmptyString => false
      | String d s' => if Ascii.eqb d c then HasPrefix s' prefix' else false
      end
  end.

(** [strings.Contains(s, substr)] is [strings.Index(s, substr) >= 0]:
    some position of [s] starts an occurrence of [substr]. *)
Fixpoint Contains (s substr : string) : bool :=
  if HasPrefix s substr then true
  else match s with
       | EmptyString => false
       | String _ s' => Contains s' substr
       end.

(** ** Data model *)

(** Modelled from the spec: the declaration of [shared.MetadataLink] is
    not part of this file's source; a link record "has at minimum a URL
    field (string) and may carry additional annotation fields opaque to
    the core". *)
Record MetadataLink := mkMetadataLink {
  URL : string;
  Annotations : list (string * string)
}.

Abbreviation MetadataLinks := (list MetadataLink).
Abbreviation MetadataResults := (gmap string (list MetadataLink)).

(** [query.AbstractLink]: the "link" search atom. *)
Record AbstractLink := mkAbstractLink { Pattern : string }.

(** ** [filterMetadata] *)

(** The inner loop [for _, link := range links] with its [break]:
    [remaining] is the part of [links] still to visit. *)
Fixpoint scanLinks (pattern test : string) (links remaining : MetadataLinks)
    (res : MetadataResults) : MetadataResults :=
  match remaining with
  | [] => res
  | link :: rest =>
      if Contains (URL link) pattern
      then <[test := links]> res
      else scanLinks pattern test links rest res
  end.

Definition filterMetadata_body (linkQuery : AbstractLink)
    (res : MetadataResults) (entry : string * MetadataLinks) : MetadataResults :=
  scanLinks (Pattern linkQuery) entry.1 entry.2 entry.2 res.

(** The outer loop over an explicit iteration order of the map. *)
Definition filterMetadata_range (linkQuery : AbstractLink)
    (entries : list (string * MetadataLinks)) : MetadataResults :=
  foldl (filterMetadata_body linkQuery) ∅ entries.

Definition filterMetadata (linkQuery : AbstractLink)
    (metadata : MetadataResults) : MetadataResults :=
  filterMetadata_range linkQuery (map_to_list metadata).

(** Whether some link of the list has a URL containing the pattern. *)
Definition anyLinkContains (pattern : string) (links : MetadataLinks) : bool :=
  existsb (fun link => Contains (URL link) pattern) links.

(** ** [filterMetadata] over a store of map objects

    A Go map value is a reference (possibly nil) to a map object.  The
    store maps locations to the contents of the allocated map objects. *)

Abbreviation loc := positive.
Abbreviation Heap := (gmap positive (gmap string (list MetadataLink))).

(** A map reference: [None] is the nil map. *)
Abbreviation MapRef := (option positive).

(** [make(shared.MetadataResults)] *)
Definition make_map (h : Heap) : loc * Heap :=
  let l := fresh (dom h) in (l, <[l := ∅]> h).

(** The contents seen through a reference; a nil map reads as empty. *)
Definition map_contents (h : Heap) (r : MapRef) : MetadataResults :=
  match r with
  | None => ∅
  | Some l => default ∅ (h !! l)
  end.

(** [m[k]] *)
Definition map_load (h : Heap) (r : MapRef) (k : string) : option MetadataLinks :=
  map_contents h r !! k.

(** [m[k] = v] on an allocated map object. *)
Definition map_store (l : loc) (k : string) (v : MetadataLinks) (h : Heap) : Heap :=
  match h !! l with
  | Some m => <[l := <[k := v]> m]> h
  | None => h
  end.

(** The keys visited by [range m], in the order of [map_to_list]. *)
Definition map_keys (h : Heap) (r : MapRef) : list string :=
  (map_to_list (map_contents h r)).*1.

Fixpoint scanLinks_heap (pattern test : string) (links remaining : MetadataLinks)
    (res : loc) (h : Heap) : Heap :=
  match remaining with
  | [] => h
  | link :: rest =>
      if Contains (URL link) pattern
      then map_store res test links h
      else scanLinks_heap pattern test links rest res h
  end.

(** One iteration of the outer loop: the entry is read from the store as
    it is at that moment. *)
Definition filterMetadata_heap_body (linkQuery : AbstractLink)
    (metadata : MapRef) (res : loc) (h : Heap) (test : string) : Heap :=
  match map_load h metadata test with
  | Some links => scanLinks_heap (Pattern linkQuery) test links links res h
  | None => h
  end.

Definition filterMetadata_heap (linkQuery : AbstractLink) (metadata : MapRef)
    (h : Heap) : loc * Heap :=
  let '(res, h1) := make_map h in
  (res, foldl (filterMetadata_heap_body linkQuery metadata res) h1
          (map_keys h1 metadata)).

(** A reference is valid in a store when it is nil or allocated. *)
Definition valid_ref (h : Heap) (r : MapRef) : Prop :=
  match r with
  | None => True
  | Some l => is_Some (h !! l)
  end.

(** ** Errors and control flow

    A Go [error] is represented by the text of its [Error()]; a call that
    returns [(value, err)] is a [Result]. *)

Inductive Result (A : Type) :=
| Ok (a : A)
| Err (e : string).
Arguments Ok {A} a.
Arguments Err {A} e.

(** ** [io.ReadCloser]

    [ServerBody] is the body stream the HTTP server attaches to a request:
    the bytes still to be delivered, the error (other than EOF) the
    transport reports after them, the error [Close] reports, and whether
    it has been closed.  [BufferBody] is a [bytes.Buffer] under
    [ioutil.NopCloser]. *)
Inductive ReadCloser :=
| ServerBody (pending : string) (read_err close_err : option string) (closed : bool)
| BufferBody (buf : string).

Module ioutil.

(** [ioutil.ReadAll]: drains the stream; what was read is gone from it. *)
Definition ReadAll (b : ReadCloser) : (string * option string) * ReadCloser :=
  match b with
  | ServerBody pending read_err close_err closed =>
      if closed
      then (("", Some "http: invalid Read on closed Body"), b)
      else ((pending, read_err), ServerBody "" read_err close_err closed)
  | BufferBody buf => ((buf, None), BufferBody "")
  end.

(** [ioutil.NopCloser(bytes.NewBuffer(data))] *)
Definition NopCloser (data : string) : ReadCloser := BufferBody data.

End ioutil.

(** [b.Close()] *)
Definition Close (b : ReadCloser) : option string * ReadCloser :=
  match b with
  | ServerBody pending read_err close_err closed =>
      (if closed then None else close_err,
       ServerBody pending read_err close_err true)
  | BufferBody buf => (None, b)
  end.

(** The line feed [fmt.Fprintln] appends. *)
Definition LF : string := Eval cbv in String (Ascii.ascii_of_nat 10) EmptyString.

(** ** [net/http] objects *)

Module http.

Definition StatusOK : Z := 200.
Definition StatusCreated : Z := 201.
Definition StatusBadRequest : Z := 400.
Definition StatusInternalServerError : Z := 500.

(** [r.URL]: its canonical string ([URL.String()]) and its parsed query
    parameters ([URL.Query()]). *)
Record URL := mkURL {
  URL_String : string;
  URL_Query : gmap string (list string)
}.

Record Request := mkRequest {
  Method : string;
  RequestURL : URL;
  Header : gmap string (list string);
  Body : ReadCloser
}.

(** [h.Get(key)]: the first value of the key, or the empty string. *)
Definition Header_Get (h : gmap string (list string)) (key : string) : string :=
  match h !! key with
  | Some (v :: _) => v
  | _ => ""
  end.

(** What has been sent on a [ResponseWriter]: the status line, if
    already written, and the body bytes. *)
Record ResponseWriter := mkResponseWriter {
  Code : option Z;
  Written : string
}.

Definition NewResponse : ResponseWriter :=
  {| Code := None; Written := "" |}.

(** [w.WriteHeader(code)]: only the first call has an effect. *)
Definition WriteHeader (code : Z) (w : ResponseWriter) : ResponseWriter :=
  match Code w with
  | Some _ => w
  | None => {| Code := Some code; Written := Written w |}
  end.

(** [w.Write(data)] when [n] bytes of [data] reach the client: the
    status line is written first ([StatusOK]) if it was not yet. *)
Definition Write (data : string) (n : nat) (w : ResponseWriter) : ResponseWriter :=
  let w' := WriteHeader StatusOK w in
  {| Code := Code w'; Written := Written w' +:+ String.substring 0 n data |}.

(** [http.Error(w, error, code)]: [WriteHeader(code)] then
    [fmt.Fprintln(w, error)]. *)
Definition Error (msg : string) (code : Z) (w : ResponseWriter) : ResponseWriter :=
  let w' := WriteHeader code w in
  {| Code := Code w'; Written := Written w' +:+ msg +:+ LF |}.

End http.

(** ** Collaborators *)

(** [shared.User], with the fields the triage handler reads. *)
Record User := mkUser {
  GitHubHandle : string;
  GithuhEmail : string
}.

(** [github.Client]: identified by the credential its transport sends. *)
Record Client := mkClient { credential : string }.

(** [github.Response]: only the status code is inspected. *)
Record Response := mkResponse { StatusCode : Z }.

(** What the remote hosting API does with a request of the go-github
    client: the transport fails, or a reply arrives with its status and
    the text go-github's [ErrorResponse] gives it. *)
Inductive RemoteReply :=
| TransportFailure (e : string)
| Reply (status : Z) (description : string).

(** go-github's [Client.Do], as [Authorizations.Check] and
    [Organizations.GetOrgMembership] hand it on: a transport failure is
    an error, and so is every reply that [CheckResponse] refuses, that
    is, one whose status is outside the 200 range or is 202; the response
    comes with a nil error only for the other statuses. *)
Definition github_Do (reply : RemoteReply) : Result Response :=
  match reply with
  | TransportFailure e => Err e
  | Reply status description =>
      if decide ((200 ≤ status ≤ 299)%Z ∧ status ≠ 202%Z)
      then Ok {| StatusCode := status |}
      else Err description
  end.

Abbreviation ProductSpec := string (only parsing).

(** Modelled from the spec: package [query] is not part of this file's
    source.  [ae.Args] holds interface values; the handler only asks
    whether the dynamic type of one is [AbstractLink] ("a tagged variant
    over node kinds (link-predicate, future kinds)"). *)
Inductive AbstractQuery :=
| LinkQuery (l : AbstractLink)
| OtherQuery (kind : string).

Record AbstractExists := mkAbstractExists { Args : list AbstractQuery }.

(** [q.(query.AbstractLink)]: the value, or the zero value, and [ok]. *)
Definition assert_AbstractLink (q : AbstractQuery) : AbstractLink * bool :=
  match q with
  | LinkQuery l => (l, true)
  | OtherQuery _ => ({| Pattern := "" |}, false)
  end.

(** The answers of the collaborators that live outside this file. *)
Record Env := mkEnv {
  (* encoding/json *)
  json_Unmarshal_MetadataResults : string → Result MetadataResults;
  json_Unmarshal_AbstractExists : string → Result AbstractExists;
  json_Marshal : MetadataResults → Result string;
  (* package shared *)
  MetadataArchiveURL : string;
  GetUserFromCookie : gmap string (list string) → option User * option string;
  GetSecret : string → Result string;
  GetGithubClientFromToken : string → Result Client;
  ParseProductOrBrowserParams : gmap string (list string) → Result (list ProductSpec);
  GetMetadataResponseOnProducts : list ProductSpec → string → Result MetadataResults;
  (* go-github, through the given client *)
  Authorizations_Check : Client → string → string → Result Response;
  Organizations_GetOrgMembership : Client → string → string → Result Response;
  (* triageMetadata.triage, through the given client and attribution *)
  triage : Client → string → string → MetadataResults → option string;
  (* the connection: bytes accepted and error of [w.Write] *)
  connection_Write : string → nat * option string;
  (* the clock, in nanoseconds *)
  now : Z
}.

(** Arguments of a logged format string. *)
Inductive FmtArg :=
| ArgQuery (ae : AbstractExists).

(** The calls a request makes to its collaborators, in order. *)
Inductive Event :=
| CallGetUserFromCookie
| CallGetSecret (name : string)
| CallAuthorizationsCheck (c : Client) (clientID token : string)
| CallGetOrgMembership (c : Client) (user org : string)
| CallGetGithubClientFromToken (secret : string)
| CallTriage (c : Client) (authorName authorEmail : string) (metadata : MetadataResults)
| CallGetMetadataResponseOnProducts (products : list ProductSpec) (metadataURL : string)
| CallCacheGet (key : string)
| CallCacheSet (key : string)
| LogErrorf (format : string) (args : list FmtArg).

(** The operations of the remote hosting API: token check, organization
    membership check and submission of the change. *)
Definition is_remote_call (e : Event) : bool :=
  match e with
  | CallAuthorizationsCheck _ _ _ => true
  | CallGetOrgMembership _ _ _ => true
  | CallTriage _ _ _ _ => true
  | _ => false
  end.

Definition is_submission (e : Event) : bool :=
  match e with
  | CallTriage _ _ _ _ => true
  | _ => false
  end.

Definition is_fetch (e : Event) : bool :=
  match e with
  | CallGetMetadataResponseOnProducts _ _ => true
  | _ => false
  end.

(** ** The handler monad *)

Record CacheEntry := mkCacheEntry {
  payload : string;
  stored_at : Z
}.

(** The objects a handler works on. *)
Record State := mkState {
  req : http.Request;
  w : http.ResponseWriter;
  cache : gmap string CacheEntry;
  log : list Event
}.

(** How a piece of a function body ends: it falls through with a value,
    executes [return], or panics. *)
Inductive Ctl (A : Type) :=
| Continue (a : A)
| Return
| Panic (msg : string).
Arguments Continue {A} a.
Arguments Return {A}.
Arguments Panic {A} msg.

Definition Handler (A : Type) : Type := State → Ctl A * State.

#[global] Instance Handler_ret : MRet Handler :=
  fun A (a : A) s => (Continue a, s).

#[global] Instance Handler_bind : MBind Handler :=
  fun A B (k : A → Handler B) (m : Handler A) s =>
    match m s with
    | (Continue a, s') => k a s'
    | (Return, s') => (Return, s')
    | (Panic msg, s') => (Panic msg, s')
    end.

Definition return_ {A} : Handler A := fun s => (Return, s).

Definition panic {A} (msg : string) : Handler A := fun s => (Panic msg, s).

(** Calling a function from another one: the callee's [return] ends the
    callee only; a panic unwinds through the caller. *)
Definition call (f : Handler unit) : Handler unit :=
  fun s =>
    match f s with
    | (Return, s') => (Continue tt, s')
    | other => other
    end.

Definition emit (e : Event) : Handler unit :=
  fun s => (Continue tt,
            {| req := req s; w := w s; cache := cache s; log := log s ++ [e] |}).

Definition getRequest : Handler http.Request :=
  fun s => (Continue (req s), s).

Definition setBody (b : ReadCloser) : Handler unit :=
  fun s => (Continue tt,
            {| req := {| http.Method := http.Method (req s);
                         http.RequestURL := http.RequestURL (req s);
                         http.Header := http.Header (req s);
                         http.Body := b |};
               w := w s; cache := cache s; log := log s |}).

Definition modifyResponse (f : http.ResponseWriter → http.ResponseWriter) : Handler unit :=
  fun s => (Continue tt,
            {| req := req s; w := f (w s); cache := cache s; log := log s |}).

Definition getResponse : Handler http.ResponseWriter :=
  fun s => (Continue (w s), s).

Definition getCache : Handler (gmap string CacheEntry) :=
  fun s => (Continue (cache s), s).

Definition setCache (c : gmap string CacheEntry) : Handler unit :=
  fun s => (Continue tt, {| req := req s; w := w s; cache := c; log := log s |}).

(** [ioutil.ReadAll(r.Body)] *)
Definition ReadAll_Body : Handler (string * option string) :=
  r ← getRequest;
  let '(res, b') := ioutil.ReadAll (http.Body r) in
  setBody b';;
  mret res.

(** [r.Body.Close()] *)
Definition Close_Body : Handler (option string) :=
  r ← getRequest;
  let '(err, b') := Close (http.Body r) in
  setBody b';;
  mret err.

Definition http_Error (msg : string) (code : Z) : Handler unit :=
  modifyResponse (http.Error msg code).

(** [MetadataHandler]: the logger and the HTTP client are capabilities
    answered by the environment; the archive URL is data. *)
Record MetadataHandler := mkMetadataHandler { metadataURL : string }.

Definition Minute : Z := 60 * 1000000000.

(** The expiry given to the cache in [apiMetadataHandler]. *)
Definition TTL : Z := 5 * Minute.

Section Handlers.

Variable env : Env.

(** *** Calls to the collaborators, each recorded in the log *)

Definition call_GetUserFromCookie : Handler (option User * option string) :=
  r ← getRequest;
  emit CallGetUserFromCookie;;
  mret (GetUserFromCookie env (http.Header r)).

Definition call_GetSecret (name : string) : Handler (Result string) :=
  emit (CallGetSecret name);;
  mret (GetSecret env name).

Definition call_Authorizations_Check (c : Client) (clientID token : string)
    : Handler (Result Response) :=
  emit (CallAuthorizationsCheck c clientID token);;
  mret (Authorizations_Check env c clientID token).

Definition call_GetOrgMembership (c : Client) (user org : string)
    : Handler (Result Response) :=
  emit (CallGetOrgMembership c user org);;
  mret (Organizations_GetOrgMembership env c user org).

Definition call_GetGithubClientFromToken (secret : string) : Handler (Result Client) :=
  emit (CallGetGithubClientFromToken secret);;
  mret (GetGithubClientFromToken env secret).

Definition call_triage (c : Client) (authorName authorEmail : string)
    (metadata : MetadataResults) : Handler (option string) :=
  emit (CallTriage c authorName authorEmail metadata);;
  mret (triage env c authorName authorEmail metadata).

Definition call_GetMetadataResponseOnProducts (products : list ProductSpec)
    (url : string) : Handler (Result MetadataResults) :=
  emit (CallGetMetadataResponseOnProducts products url);;
  mret (GetMetadataResponseOnProducts env products url).

(** [w.Write(data)], returning its error. *)
Definition w_Write (data : string) : Handler (option string) :=
  let '(n, err) := connection_Write env data in
  modifyResponse (http.Write data n);;
  mret err.

(** *** [getWPTFYIGithubBot] *)

Definition getWPTFYIGithubBot : Handler (Result Client) :=
  client ← call_GetGithubClientFromToken "github-wpt-fyi-bot-token";
  match client with
  | Err e => mret (Err e)
  | Ok client => mret (Ok client)
  end.

(** *** [apiMetadataTriageHandler] *)

Definition apiMetadataTriageHandler : Handler unit :=
  r ← getRequest;
  if decide (http.Method r ≠ "PATCH") then
    http_Error "Invalid HTTP method; only accpet PATCH request" http.StatusBadRequest;;
    return_
  else
  let contentType := http.Header_Get (http.Header r) "Content-Type" in
  if decide (contentType ≠ "application/json") then
    http_Error ("Invalid content-type: %s" +:+ contentType) http.StatusBadRequest;;
    return_
  else
  '(data, err) ← ReadAll_Body;
  match err with
  | Some _ =>
      http_Error "Failed to read PATCH request body" http.StatusInternalServerError;;
      return_
  | None =>
  err ← Close_Body;
  match err with
  | Some _ =>
      http_Error "Failed to finish reading request body" http.StatusInternalServerError;;
      return_
  | None =>
  match json_Unmarshal_MetadataResults env data with
  | Err e =>
      http_Error ("Failed to parse JSON: " +:+ e) http.StatusBadRequest;;
      return_
  | Ok metadata =>
  '(user, token) ← call_GetUserFromCookie;
  match user, token with
  | Some user, Some token =>
  let githubClient := {| credential := token |} in
  clientID ← call_GetSecret "github-oauth-client-id";
  match clientID with
  | Err e =>
      http_Error ("Failed to get github-oauth-client-id secret: " +:+ e)
        http.StatusInternalServerError;;
      return_
  | Ok clientID =>
  (* Check if the token is still valid. *)
  res ← call_Authorizations_Check githubClient clientID token;
  match res with
  | Err e =>
      http_Error ("Fail to validate user token " +:+ e) http.StatusInternalServerError;;
      return_
  | Ok res =>
  if decide (StatusCode res ≠ http.StatusOK) then
    http_Error "User token invalid; please log in again. " http.StatusBadRequest;;
    return_
  else
  res ← call_GetOrgMembership githubClient "" "web-platform-tests";
  match res with
  | Err e =>
      http_Error ("Fail to validate web-platform-tests membership: " +:+ e)
        http.StatusInternalServerError;;
      return_
  | Ok res =>
  if decide (StatusCode res ≠ http.StatusOK) then
    http_Error "User is not a part of web-platform-tests" http.StatusBadRequest;;
    return_
  else
  githubBotClient ← getWPTFYIGithubBot;
  match githubBotClient with
  | Err e =>
      http_Error ("Unable to get Github Client: " +:+ e) http.StatusInternalServerError;;
      return_
  | Ok githubBotClient =>
  err ← call_triage githubBotClient (GitHubHandle user) (GithuhEmail user) metadata;
  match err with
  | Some e =>
      http_Error ("Unable to triage metadata: " +:+ e) http.StatusInternalServerError;;
      return_
  | None =>
  modifyResponse (http.WriteHeader http.StatusCreated)
  end end end end end
  | _, _ =>
      http_Error "User is not logged in" http.StatusBadRequest;;
      return_
  end end end end.

(** *** [MetadataHandler.ServeHTTP] *)

(** The POST part: the link atom of the body's query. *)
Definition parseLinkQuery : Handler AbstractLink :=
  '(data, err) ← ReadAll_Body;
  match err with
  | Some _ =>
      http_Error "Failed to read request body" http.StatusInternalServerError;;
      return_
  | None =>
  err ← Close_Body;
  match err with
  | Some _ =>
      http_Error "Failed to finish reading request body" http.StatusInternalServerError;;
      return_
  | None =>
  match json_Unmarshal_AbstractExists env data with
  | Err e =>
      http_Error e http.StatusBadRequest;;
      return_
  | Ok ae =>
  let '(abstractLink, isLinkQuery) :=
    match Args ae with
    | [arg] => assert_AbstractLink arg
    | _ => ({| Pattern := "" |}, false)
    end in
  if negb isLinkQuery then
    emit (LogErrorf "Error from request: non Link search query %s for api/metadata"
            [ArgQuery ae]);;
    http_Error "Error from request: non Link search query for api/metadata"
      http.StatusBadRequest;;
    return_
  else mret abstractLink
  end end end.

Definition ServeHTTP (h : MetadataHandler) : Handler unit :=
  r ← getRequest;
  abstractLink ←
    (if decide (http.Method r = "POST") then parseLinkQuery
     else mret {| Pattern := "" |});
  let q := http.URL_Query (http.RequestURL r) in
  match ParseProductOrBrowserParams env q with
  | Err e =>
      http_Error e http.StatusBadRequest;;
      return_
  | Ok productSpecs =>
  if decide (length productSpecs = 0%nat) then
    http_Error "Missing required 'product' param" http.StatusBadRequest;;
    return_
  else
  metadataResponse ← call_GetMetadataResponseOnProducts productSpecs (metadataURL h);
  match metadataResponse with
  | Err e =>
      http_Error e http.StatusInternalServerError;;
      return_
  | Ok metadataResponse =>
  let metadataResponse :=
    if decide (http.Method r = "POST")
    then filterMetadata abstractLink metadataResponse
    else metadataResponse in
  match json_Marshal env metadataResponse with
  | Err e =>
      http_Error e http.StatusInternalServerError;;
      return_
  | Ok marshalled =>
  err ← w_Write marshalled;
  match err with
  | Some e =>
      http_Error e http.StatusInternalServerError;;
      return_
  | None => mret tt
  end end end end.

(** *** [cacheKey] *)

(** Modelled from the spec: [shared.URLAsCacheKey] is not part of this
    file's source; for GET the cache key is the "canonical request URL
    string". *)
Definition URLAsCacheKey : Handler string :=
  r ← getRequest;
  mret (http.URL_String (http.RequestURL r)).

Definition cacheKey : Handler string :=
  r ← getRequest;
  if decide (http.Method r = "GET") then URLAsCacheKey
  else
  '(data, err) ← ReadAll_Body;
  match err with
  | Some e =>
      let msg := "Failed to read non-GET request body for generating cache key: " +:+ e in
      emit (LogErrorf msg []);;
      panic msg
  | None =>
  (* [body] is the stream [r.Body] referred to on entry, now drained. *)
  r' ← getRequest;
  let body := http.Body r' in
  (* Ensure that r.Body can be read again by other request handling routines. *)
  setBody (ioutil.NopCloser data);;
  (* the deferred [body.Close()]; its error is dropped *)
  let _ := Close body in
  mret (http.URL_String (http.RequestURL r) +:+ "#" +:+ data)
  end.

(** *** The caching handler *)

Definition cache_get (key : string) : Handler (option CacheEntry) :=
  emit (CallCacheGet key);;
  c ← getCache;
  mret (c !! key).

Definition cache_set (key data : string) : Handler unit :=
  emit (CallCacheSet key);;
  c ← getCache;
  setCache (<[key := {| payload := data; stored_at := now env |}]> c).

(** An entry is fresh iff [now - stored-at <= TTL]. *)
Definition fresh_entry (e : CacheEntry) : bool :=
  bool_decide (now env - stored_at e ≤ TTL)%Z.

(** Modelled from the spec: [shared.NewCachingHandler] is not part of
    this file's source.  Its [ServeHTTP] computes the key, looks it up,
    returns a fresh stored payload verbatim with status 200, and
    otherwise invokes the wrapped handler and stores the response body
    only if its status is 200. *)
Definition cachingHandler_ServeHTTP (delegate : Handler unit)
    (getCacheKey : Handler string) : Handler unit :=
  key ← getCacheKey;
  entry ← cache_get key;
  match entry with
  | Some e =>
      if fresh_entry e then
        modifyResponse (http.Write (payload e) (String.length (payload e)))
      else
        call delegate;;
        resp ← getResponse;
        if decide (http.Code resp = Some http.StatusOK)
        then cache_set key (http.Written resp)
        else mret tt
  | None =>
      call delegate;;
      resp ← getResponse;
      if decide (http.Code resp = Some http.StatusOK)
      then cache_set key (http.Written resp)
      else mret tt
  end.

(** *** [apiMetadataHandler] *)

Definition apiMetadataHandler : Handler unit :=
  r ← getRequest;
  if decide (http.Method r ≠ "GET" ∧ http.Method r ≠ "POST") then
    http_Error "Invalid HTTP method" http.StatusBadRequest;;
    return_
  else
  let delegate := {| metadataURL := MetadataArchiveURL env |} in
  (* Serve cached with 5 minute expiry. Delegate to Metadata Handler on cache miss. *)
  call (cachingHandler_ServeHTTP (ServeHTTP delegate) cacheKey).

End Handlers.

(** The state in which a handler receives a request. *)
Definition initial (r : http.Request) (c : gmap string CacheEntry) : State :=
  {| req := r; w := http.NewResponse; cache := c; log := [] |}.

(** ** Observations on a run *)

(** What [ioutil.ReadAll(r.Body)] returns, and what the [r.Body.Close()]
    that follows it returns. *)
Definition read_outcome (r : http.Request) : string * option string :=
  (ioutil.ReadAll (http.Body r)).1.

Definition close_outcome (r : http.Request) : option string :=
  (Close (ioutil.ReadAll (http.Body r)).2).1.

(** The handler has executed [return] after answering with the status
    and the message (as [http.Error] sends it), having made exactly the
    given calls. *)
Definition rejected (out : Ctl unit * State) (code : Z) (msg : string)
    (calls : list Event) : Prop :=
  out.1 = Return ∧
  w out.2 = {| http.Code := Some code; http.Written := msg +:+ LF |} ∧
  log out.2 = calls.

Definition run_triage (env : Env) (r : http.Request) : Ctl unit * State :=
  apiMetadataTriageHandler env (initial r ∅).

Definition run_metadata (env : Env) (h : MetadataHandler) (r : http.Request)
    : Ctl unit * State :=
  ServeHTTP env h (initial r ∅).

(** Whether a run submitted the change, called the remote hosting API,
    or fetched the metadata. *)
Definition submits (out : Ctl unit * State) : bool :=
  existsb is_submission (log out.2).

Definition calls_remote (out : Ctl unit * State) : bool :=
  existsb is_remote_call (log out.2).

Definition fetches (out : Ctl unit * State) : bool :=
  existsb is_fetch (log out.2).

(** The bytes of the request body do not decode as a triage payload. *)
Definition malformed_body (env : Env) (r : http.Request) : Prop :=
  ∃ e, json_Unmarshal_MetadataResults env (read_outcome r).1 = Err e.

(** The answer is 400 with the message that names the decoder's error. *)
Definition answers_parse_failure (env : Env) (r : http.Request) : Prop :=
  ∃ e, json_Unmarshal_MetadataResults env (read_outcome r).1 = Err e ∧
       w (run_triage env r).2 =
       {| http.Code := Some http.StatusBadRequest;
          http.Written := "Failed to parse JSON: " +:+ e +:+ LF |}.

(** The checks of the triage handler, each including the ones before it. *)
Definition passes_method (r : http.Request) : Prop :=
  http.Method r = "PATCH".

Definition passes_content_type (r : http.Request) : Prop :=
  passes_method r ∧
  http.Header_Get (http.Header r) "Content-Type" = "application/json".

Definition passes_read (r : http.Request) (data : string) : Prop :=
  passes_content_type r ∧ read_outcome r = (data, None).

Definition passes_close (r : http.Request) (data : string) : Prop :=
  passes_read r data ∧ close_outcome r = None.

Definition passes_decode (env : Env) (r : http.Request)
    (metadata : MetadataResults) : Prop :=
  ∃ data, passes_close r data ∧
          json_Unmarshal_MetadataResults env data = Ok metadata.

Definition passes_session (env : Env) (r : http.Request)
    (metadata : MetadataResults) (user : User) (token : string) : Prop :=
  passes_decode env r metadata ∧
  GetUserFromCookie env (http.Header r) = (Some user, Some token).

Definition passes_secret (env : Env) (r : http.Request)
    (metadata : MetadataResults) (user : User) (token clientID : string) : Prop :=
  passes_session env r metadata user token ∧
  GetSecret env "github-oauth-client-id" = Ok clientID.

Definition passes_token_check (env : Env) (r : http.Request)
    (metadata : MetadataResults) (user : User) (token clientID : string) : Prop :=
  passes_secret env r metadata user token clientID ∧
  ∃ res, Authorizations_Check env {| credential := token |} clientID token = Ok res ∧
         StatusCode res = http.StatusOK.

Definition authorized (env : Env) (r : http.Request)
    (metadata : MetadataResults) (user : User) (token clientID : string) : Prop :=
  passes_token_check env r metadata user token clientID ∧
  ∃ res, Organizations_GetOrgMembership env {| credential := token |} ""
           "web-platform-tests" = Ok res ∧
         StatusCode res = http.StatusOK.

(** The calls an authorized request has made when the authorization is
    over. *)
Definition authorization_calls (token clientID : string) : list Event :=
  [ CallGetUserFromCookie;
    CallGetSecret "github-oauth-client-id";
    CallAuthorizationsCheck {| credential := token |} clientID token;
    CallGetOrgMembership {| credential := token |} "" "web-platform-tests" ].

(** ** Sample collaborators and requests *)

Definition sample_user : User :=
  {| GitHubHandle := "kyleju"; GithuhEmail := "kyleju@example.com" |}.

Definition sample_metadata : MetadataResults :=
  {[ "test1" := [ {| URL := "https://github.com/issue/1"; Annotations := [] |} ];
     "test2" := [ {| URL := "https://other.com"; Annotations := [] |} ] ]}.

Definition sample_link : AbstractLink := {| Pattern := "github.com/issue/1" |}.

(** A stand-in environment.  Its decoders know three bodies: [{}] (an
    empty mapping, or a query without arguments), [link] (a query with one
    link atom) and [and] (a query with one other atom); any other body is
    a parse error. *)
Definition sample_env (secret : Result string) (check membership : Result Response)
    (bot : Result Client) (submit : option string) : Env :=
  {| json_Unmarshal_MetadataResults := fun data =>
       if decide (data = "{}") then Ok ∅
       else Err "unexpected end of JSON input";
     json_Unmarshal_AbstractExists := fun data =>
       if decide (data = "{}") then Ok {| Args := [] |}
       else if decide (data = "link") then Ok {| Args := [LinkQuery sample_link] |}
       else if decide (data = "and") then Ok {| Args := [OtherQuery "and"] |}
       else Err "unexpected end of JSON input";
     json_Marshal := fun m => Ok (if decide (m = ∅) then "{}" else "{...}");
     MetadataArchiveURL := "https://example.com/metadata.zip";
     GetUserFromCookie := fun h =>
       match h !! "Cookie" with
       | Some _ => (Some sample_user, Some "user-token")
       | None => (None, None)
       end;
     GetSecret := fun _ => secret;
     GetGithubClientFromToken := fun _ => bot;
     ParseProductOrBrowserParams := fun q =>
       match q !! "product" with
       | Some products => Ok products
       | None => Ok []
       end;
     GetMetadataResponseOnProducts := fun _ _ => Ok sample_metadata;
     Authorizations_Check := fun _ _ _ => check;
     Organizations_GetOrgMembership := fun _ _ _ => membership;
     triage := fun _ _ _ _ => submit;
     connection_Write := fun data => (String.length data, None);
     now := 0 |}.

Definition good_env : Env :=
  sample_env (Ok "client-id") (Ok {| StatusCode := 200 |}) (Ok {| StatusCode := 200 |})
    (Ok {| credential := "bot-token" |}) None.

Definition sample_request (method contentType : string) (body : ReadCloser)
    : http.Request :=
  {| http.Method := method;
     http.RequestURL :=
       {| http.URL_String := "/api/metadata?product=chrome";
          http.URL_Query := {[ "product" := ["chrome"] ]} |};
     http.Header := {[ "Content-Type" := [contentType]; "Cookie" := ["session=1"] ]};
     http.Body := body |}.

Definition good_body (data : string) : ReadCloser :=
  ServerBody data None None false.

Definition broken_body (data : string) : ReadCloser :=
  ServerBody data (Some "unexpected EOF") None false.

(** A PATCH request that is not declared as JSON and whose body [{] does
    not decode. *)
Definition text_plain_request : http.Request :=
  sample_request "PATCH" "text/plain" (good_body "{").

Definition triage_request (data : string) : http.Request :=
  sample_request "PATCH" "application/json" (good_body data).

Definition post_request (body : ReadCloser) : http.Request :=
  sample_request "POST" "application/json" body.

(** The remote hosting API answers the token check with 404: the token
    is not valid any more. *)
Definition invalid_token_env : Env :=
  sample_env (Ok "client-id")
    (github_Do (Reply 404 "GET https://api.github.com/applications/client-id/tokens/user-token: 404 Not Found []"))
    (github_Do (Reply 200 "")) (Ok {| credential := "bot-token" |}) None.

(** The remote hosting API answers the membership check with 404: the
    user is not a member of the organization. *)
Definition not_a_member_env : Env :=
  sample_env (Ok "client-id") (github_Do (Reply 200 ""))
    (github_Do (Reply 404 "GET https://api.github.com/user/memberships/orgs/web-platform-tests: 404 Not Found []"))
    (Ok {| credential := "bot-token" |}) None.

(** The secret store has no client id. *)
Definition no_secret_env : Env :=
  sample_env (Err "datastore: no such entity") (Ok {| StatusCode := 200 |})
    (Ok {| StatusCode := 200 |}) (Ok {| credential := "bot-token" |}) None.

Definition get_request : http.Request :=
  sample_request "GET" "" (good_body "").

(** A well-formed triage request without a session cookie. *)
Definition anonymous_request : http.Request :=
  {| http.Method := "PATCH";
     http.RequestURL :=
       {| http.URL_String := "/api/metadata/triage"; http.URL_Query := ∅ |};
     http.Header := {[ "Content-Type" := ["application/json"] ]};
     http.Body := good_body "{}" |}.

Definition sample_heap : Heap := {[ 1%positive := sample_metadata ]}.

(** ** Further observations *)

(** The request with another body attached. *)
Definition with_Body (r : http.Request) (b : ReadCloser) : http.Request :=
  {| http.Method := http.Method r;
     http.RequestURL := http.RequestURL r;
     http.Header := http.Header r;
     http.Body := b |}.

(** The metadata handler gets past its query stage with the link atom
    [link]: the request is not a POST and the atom is the zero value, or
    it is a POST whose body is read, closed and decoded to a query with
    exactly that one link atom. *)
Definition link_query (env : Env) (r : http.Request) (link : AbstractLink) : Prop :=
  (http.Method r ≠ "POST" ∧ link = {| Pattern := "" |}) ∨
  (http.Method r = "POST" ∧
   ∃ data ae, read_outcome r = (data, None) ∧ close_outcome r = None ∧
              json_Unmarshal_AbstractExists env data = Ok ae ∧
              Args ae = [LinkQuery link]).

(** All the calls of a triage request that goes through to the submission. *)
Definition triage_calls (token clientID : string) (bot : Client)
    (authorName authorEmail : string) (metadata : MetadataResults) : list Event :=
  authorization_calls token clientID ++
  [ CallGetGithubClientFromToken "github-wpt-fyi-bot-token";
    CallTriage bot authorName authorEmail metadata ].


(** A PATCH request without headers. *)
Definition bare_request : http.Request :=
  {| http.Method := "PATCH";
     http.RequestURL :=
       {| http.URL_String := "/api/metadata/triage"; http.URL_Query := ∅ |};
     http.Header := ∅;
     http.Body := good_body "{}" |}.

(** A connection that breaks after the first ten bytes. *)
Definition broken_connection_env : Env :=
  {| json_Unmarshal_MetadataResults := json_Unmarshal_MetadataResults good_env;
     json_Unmarshal_AbstractExists := json_Unmarshal_AbstractExists good_env;
     json_Marshal := fun _ => Ok "{...very long...}";
     MetadataArchiveURL := MetadataArchiveURL good_env;
     GetUserFromCookie := GetUserFromCookie good_env;
     GetSecret := GetSecret good_env;
     GetGithubClientFromToken := GetGithubClientFromToken good_env;
     ParseProductOrBrowserParams := ParseProductOrBrowserParams good_env;
     GetMetadataResponseOnProducts := GetMetadataResponseOnProducts good_env;
     Authorizations_Check := Authorizations_Check good_env;
     Organizations_GetOrgMembership := Organizations_GetOrgMembership good_env;
     triage := triage good_env;
     connection_Write := fun _ => (10%nat, Some "write: broken pipe");
     now := 0 |}.

(** The metadata archive cannot be fetched. *)
Definition no_archive_env : Env :=
  {| json_Unmarshal_MetadataResults := json_Unmarshal_MetadataResults good_env;
     json_Unmarshal_AbstractExists := json_Unmarshal_AbstractExists good_env;
     json_Marshal := json_Marshal good_env;
     MetadataArchiveURL := MetadataArchiveURL good_env;
     GetUserFromCookie := GetUserFromCookie good_env;
     GetSecret := GetSecret good_env;
     GetGithubClientFromToken := GetGithubClientFromToken good_env;
     ParseProductOrBrowserParams := ParseProductOrBrowserParams good_env;
     GetMetadataResponseOnProducts := fun _ _ => Err "Get: context deadline exceeded";
     Authorizations_Check := Authorizations_Check good_env;
     Organizations_GetOrgMembership := Organizations_GetOrgMembership good_env;
     triage := triage good_env;
     connection_Write := connection_Write good_env;
     now := 0 |}.

(** A GET request without a product parameter. *)
Definition no_product_request : http.Request :=
  {| http.Method := "GET";
     http.RequestURL :=
       {| http.URL_String := "/api/metadata"; http.URL_Query := ∅ |};
     http.Header := ∅;
     http.Body := good_body "" |}.

Definition sample_handler : MetadataHandler :=
  {| metadataURL := "https://example.com/metadata.zip" |}.

(** ** Properties of [strings.Contains] *)

Lemma HasPrefix_spec (s p : string) :
  HasPrefix s p = true ↔ ∃ rest, s = p +:+ rest.
Proof.
  revert s. induction p as [|c p IH]; intros s; simpl.
  - split; [intros _; by exists s | done].
  - destruct s as [|d s]; simpl.
    + split; [done | intros [rest H]; discriminate].
    + destruct (Ascii.eqb d c) eqn:E.
      * apply Ascii.eqb_eq in E as ->. rewrite IH. split.
        -- intros [rest ->]. by exists rest.
        -- intros [rest H]. injection H as ->. by exists rest.
      * apply Ascii.eqb_neq in E. split; [done |].
        intros [rest H]. injection H as H1 H2. done.
Qed.

Lemma Contains_spec (s p : string) :
  Contains s p = true ↔ ∃ pre post, s = pre +:+ p +:+ post.
Proof.
  induction s as [|d s IH]; simpl.
  - destruct (HasPrefix "" p) eqn:E.
    + apply HasPrefix_spec in E as [rest E]. split; [|done].
      intros _. exists "", rest. done.
    + split; [done |]. intros [pre [post H]].
      destruct pre; [|discriminate]. simpl in H.
      assert (HasPrefix "" p = true) by (apply HasPrefix_spec; eauto).
      congruence.
  - destruct (HasPrefix (String d s) p) eqn:E.
    + apply HasPrefix_spec in E as [rest E]. split; [|done].
      intros _. exists "", rest. done.
    + rewrite IH. split.
      * intros [pre [post ->]]. by exists (String d pre), post.
      * intros [pre [post H]]. destruct pre as [|e pre]; simpl in H.
        -- assert (HasPrefix (String d s) p = true)
             by (apply HasPrefix_spec; eauto).
           congruence.
        -- injection H as -> ->. eauto.
Qed.

Lemma Contains_empty (s : string) : Contains s "" = true.
Proof. by destruct s. Qed.

(** ** The link filter *)

Lemma anyLinkContains_spec (p : string) (links : MetadataLinks) :
  anyLinkContains p links = true ↔
  ∃ link pre post, link ∈ links ∧ URL link = pre +:+ p +:+ post.
Proof.
  unfold anyLinkContains. rewrite existsb_exists. split.
  - intros (link & Hin & Hc). apply Contains_spec in Hc as (pre & post & Hc).
    exists link, pre, post. by rewrite list_elem_of_In.
  - intros (link & pre & post & Hin & Hc). exists link.
    rewrite <- list_elem_of_In. split; [done |].
    apply Contains_spec. eauto.
Qed.

Lemma anyLinkContains_empty_pattern (links : MetadataLinks) :
  anyLinkContains "" links = true ↔ links ≠ [].
Proof.
  destruct links as [|link links]; simpl; [done |].
  by rewrite Contains_empty.
Qed.

(** The inner loop stores the entry exactly when some remaining link
    matches. *)
Lemma scanLinks_eq (p t : string) (links remaining : MetadataLinks)
    (res : MetadataResults) :
  scanLinks p t links remaining res =
  if anyLinkContains p remaining then <[t := links]> res else res.
Proof.
  induction remaining as [|link rest IH]; simpl; [done |].
  by destruct (Contains (URL link) p).
Qed.

Lemma filterMetadata_body_eq (lq : AbstractLink) (res : MetadataResults)
    (t : string) (links : MetadataLinks) :
  filterMetadata_body lq res (t, links) =
  if anyLinkContains (Pattern lq) links then <[t := links]> res else res.
Proof. apply scanLinks_eq. Qed.

Lemma filterMetadata_foldl_lookup (lq : AbstractLink)
    (entries : list (string * MetadataLinks)) :
  NoDup entries.*1 →
  ∀ (res : MetadataResults) (t : string),
    foldl (filterMetadata_body lq) res entries !! t =
    match (list_to_map entries : MetadataResults) !! t with
    | Some links =>
        if anyLinkContains (Pattern lq) links then Some links else res !! t
    | None => res !! t
    end.
Proof.
  induction entries as [|[k ls] rest IH]; intros Hnd res t; simpl.
  - by rewrite lookup_empty.
  - apply NoDup_cons in Hnd as [Hk Hnd]. simpl in Hk.
    rewrite (IH Hnd), filterMetadata_body_eq.
    destruct (decide (k = t)) as [->|Hne].
    + rewrite lookup_insert_eq.
      rewrite (not_elem_of_list_to_map_1 (M := gmap string) rest t Hk).
      destruct (anyLinkContains (Pattern lq) ls); [|done].
      by rewrite lookup_insert_eq.
    + rewrite (lookup_insert_ne _ k t) by done.
      assert ((if anyLinkContains (Pattern lq) ls then <[k := ls]> res else res) !! t
              = res !! t) as ->; [|done].
      destruct (anyLinkContains (Pattern lq) ls); [|done].
      by rewrite lookup_insert_ne.
Qed.

(** Whatever order [range] visits the map in, the result is the same. *)
Lemma filterMetadata_range_lookup (lq : AbstractLink) (m : MetadataResults)
    (entries : list (string * MetadataLinks)) (t : string) :
  entries ≡ₚ map_to_list m →
  filterMetadata_range lq entries !! t =
  match m !! t with
  | Some links => if anyLinkContains (Pattern lq) links then Some links else None
  | None => None
  end.
Proof.
  intros Hp. unfold filterMetadata_range.
  assert (NoDup entries.*1) as Hnd.
  { rewrite Hp. apply NoDup_fst_map_to_list. }
  rewrite (filterMetadata_foldl_lookup lq entries Hnd).
  rewrite (list_to_map_proper (M := gmap string) entries (map_to_list m) Hnd Hp).
  rewrite list_to_map_to_list, lookup_empty. done.
Qed.

Lemma filterMetadata_range_order (lq : AbstractLink) (m : MetadataResults)
    (entries : list (string * MetadataLinks)) :
  entries ≡ₚ map_to_list m →
  filterMetadata_range lq entries = filterMetadata lq m.
Proof.
  intros Hp. apply map_eq. intros t. unfold filterMetadata.
  by rewrite (filterMetadata_range_lookup lq m entries t Hp),
             (filterMetadata_range_lookup lq m (map_to_list m) t).
Qed.

Lemma filterMetadata_lookup (lq : AbstractLink) (m : MetadataResults) (t : string) :
  filterMetadata lq m !! t =
  match m !! t with
  | Some links => if anyLinkContains (Pattern lq) links then Some links else None
  | None => None
  end.
Proof. by apply filterMetadata_range_lookup. Qed.

Lemma filterMetadata_lookup_Some (lq : AbstractLink) (m : MetadataResults)
    (t : string) (links : MetadataLinks) :
  filterMetadata lq m !! t = Some links ↔
  m !! t = Some links ∧ anyLinkContains (Pattern lq) links = true.
Proof.
  rewrite filterMetadata_lookup. destruct (m !! t) as [ls|] eqn:E.
  - destruct (anyLinkContains (Pattern lq) ls) eqn:Ha.
    + split; [intros [= ->]; done | intros [[= ->] _]; done].
    + split; [done | intros [[= ->] Hb]; congruence].
  - split; [done | intros [? _]; done].
Qed.

(** The match is on bytes: no case folding and no glob or regex reading
    of the pattern. *)
Example Contains_case_sensitive :
  Contains "https://GitHub.com/issue/1" "github" = false ∧
  Contains "https://github.com/issue/1" "github" = true ∧
  Contains "https://github.com/issue/1" "git.*" = false.
Proof. by vm_compute. Qed.

(** C3.  [filterMetadata] retains a test entry, with its whole link list,
    iff at least one of the entry's links has a URL of which the pattern
    is a (byte-exact, hence case-sensitive) substring.  Hence the keys of
    the output are keys of the input, every retained entry has a link
    containing the pattern, and with the empty pattern exactly the
    entries with a non-empty link list are retained. *)
Theorem filterMetadata_retains_iff_link_matches
    (p : string) (m : MetadataResults) :
  (∀ test links,
      filterMetadata {| Pattern := p |} m !! test = Some links ↔
      m !! test = Some links ∧
      ∃ link pre post, link ∈ links ∧ URL link = pre +:+ p +:+ post) ∧
  dom (filterMetadata {| Pattern := p |} m) ⊆ dom m ∧
  (∀ test links,
      filterMetadata {| Pattern := p |} m !! test = Some links →
      ∃ link, link ∈ links ∧ Contains (URL link) p = true) ∧
  (∀ test links,
      filterMetadata {| Pattern := "" |} m !! test = Some links ↔
      m !! test = Some links ∧ links ≠ []).
Proof.
  split_and!.
  - intros test links.
    by rewrite filterMetadata_lookup_Some, anyLinkContains_spec.
  - intros test. rewrite !elem_of_dom. intros [links H].
    apply filterMetadata_lookup_Some in H as [H _]. eauto.
  - intros test links H.
    apply filterMetadata_lookup_Some in H as [_ H]. simpl in H.
    unfold anyLinkContains in H. apply existsb_exists in H as (link & Hin & Hc).
    exists link. by rewrite list_elem_of_In.
  - intros test links.
    by rewrite filterMetadata_lookup_Some, anyLinkContains_empty_pattern.
Qed.

(** C7.  The link filter is idempotent. *)
Theorem filterMetadata_idempotent (lq : AbstractLink) (m : MetadataResults) :
  filterMetadata lq (filterMetadata lq m) = filterMetadata lq m.
Proof.
  apply map_eq. intros t.
  rewrite (filterMetadata_lookup lq (filterMetadata lq m)).
  rewrite filterMetadata_lookup.
  destruct (m !! t) as [links|]; [|done].
  by destruct (anyLinkContains (Pattern lq) links) eqn:E; rewrite ?E.
Qed.

(** ** The link filter over the store *)

Lemma scanLinks_heap_eq (p t : string) (links remaining : MetadataLinks)
    (res : loc) (h : Heap) :
  scanLinks_heap p t links remaining res h =
  if anyLinkContains p remaining then map_store res t links h else h.
Proof.
  induction remaining as [|link rest IH]; simpl; [done |].
  by destruct (Contains (URL link) p).
Qed.

Lemma map_contents_store_other (h : Heap) (metadata : MapRef) (res : loc)
    (r : MetadataResults) :
  metadata ≠ Some res →
  map_contents (<[res := r]> h) metadata = map_contents h metadata.
Proof.
  intros Hne. destruct metadata as [l|]; simpl; [|done].
  rewrite lookup_insert_ne; [done | congruence].
Qed.

(** Reading the entries of a map back through its keys. *)
Lemma omap_lookup_keys (m : MetadataResults) (entries : list (string * MetadataLinks)) :
  (∀ k v, (k, v) ∈ entries → m !! k = Some v) →
  omap (λ k, (k,.) <$> m !! k) entries.*1 = entries.
Proof.
  induction entries as [|[k v] rest IH]; intros H; simpl; [done |].
  rewrite (H k v) by (by left). simpl. f_equal.
  apply IH. intros k' v' Hin. apply H. by right.
Qed.

(** The loop writes to [res] only, and what it builds there is what the
    pure loop builds from the entries it reads. *)
Lemma filterMetadata_heap_loop (lq : AbstractLink) (metadata : MapRef)
    (res : loc) (keys : list string) :
  metadata ≠ Some res →
  ∀ (h : Heap) (r : MetadataResults),
    h !! res = Some r →
    foldl (filterMetadata_heap_body lq metadata res) h keys =
    <[res := foldl (filterMetadata_body lq) r
               (omap (λ k, (k,.) <$> map_contents h metadata !! k) keys)]> h.
Proof.
  intros Hne. induction keys as [|k keys IH]; intros h r Hr; simpl.
  - by rewrite insert_id.
  - unfold filterMetadata_heap_body at 2, map_load.
    destruct (map_contents h metadata !! k) as [links|] eqn:Ek; simpl.
    + rewrite scanLinks_heap_eq, filterMetadata_body_eq.
      destruct (anyLinkContains (Pattern lq) links); [|by apply IH].
      unfold map_store. rewrite Hr.
      rewrite (IH _ (<[k := links]> r)) by apply lookup_insert_eq.
      rewrite map_contents_store_other by done.
      by rewrite insert_insert_eq.
    + by apply IH.
Qed.

Lemma filterMetadata_heap_eq (lq : AbstractLink) (metadata : MapRef) (h : Heap) :
  valid_ref h metadata →
  filterMetadata_heap lq metadata h =
  (fresh (dom h),
   <[fresh (dom h) := filterMetadata lq (map_contents h metadata)]> h).
Proof.
  intros Hv. unfold filterMetadata_heap, make_map.
  set (res := fresh (dom h)).
  assert (h !! res = None) as Hfresh.
  { apply not_elem_of_dom. apply is_fresh. }
  assert (metadata ≠ Some res) as Hne.
  { intros ->. simpl in Hv. rewrite Hfresh in Hv. by destruct Hv. }
  f_equal.
  rewrite (filterMetadata_heap_loop lq metadata res _ Hne _ ∅)
    by apply lookup_insert_eq.
  unfold map_keys. rewrite map_contents_store_other by done.
  rewrite omap_lookup_keys.
  - by rewrite insert_insert_eq.
  - intros k v. apply elem_of_map_to_list.
Qed.

(** C8.  Filtering does not mutate its input.  Run on a store in which
    the input reference is valid, [filterMetadata] returns a reference
    that was not allocated before (a newly produced mapping, distinct
    from the input); every map object that existed before, the input
    among them, has the contents it had, with the same keys and the same
    link sequences; the new object holds the filtered mapping; and each
    retained entry carries the very link sequence of the input entry, in
    the same order. *)
Theorem filterMetadata_does_not_mutate_input
    (lq : AbstractLink) (metadata : MapRef) (h : Heap) :
  valid_ref h metadata →
  ∀ res h', filterMetadata_heap lq metadata h = (res, h') →
    h !! res = None ∧
    metadata ≠ Some res ∧
    (∀ l, l ≠ res → h' !! l = h !! l) ∧
    map_contents h' metadata = map_contents h metadata ∧
    h' !! res = Some (filterMetadata lq (map_contents h metadata)) ∧
    (∀ test links,
        map_contents h' (Some res) !! test = Some links →
        map_contents h' metadata !! test = Some links ∧
        map_contents h metadata !! test = Some links).
Proof.
  intros Hv res h' Hrun.
  rewrite (filterMetadata_heap_eq lq metadata h Hv) in Hrun.
  injection Hrun as <- <-.
  set (res := fresh (dom h)).
  assert (h !! res = None) as Hfresh.
  { apply not_elem_of_dom. apply is_fresh. }
  assert (metadata ≠ Some res) as Hne.
  { intros ->. simpl in Hv. rewrite Hfresh in Hv. by destruct Hv. }
  split_and!; try done.
  - intros l Hl. by rewrite lookup_insert_ne.
  - by apply map_contents_store_other.
  - apply lookup_insert_eq.
  - intros test links. simpl. rewrite lookup_insert_eq. simpl.
    intros H. apply filterMetadata_lookup_Some in H as [H _].
    by rewrite map_contents_store_other.
Qed.

(** ** Running the handlers *)

Ltac unfold_handlers :=
  unfold run_triage, run_metadata, apiMetadataTriageHandler, ServeHTTP,
    parseLinkQuery, cacheKey, URLAsCacheKey, getWPTFYIGithubBot,
    call_GetUserFromCookie, call_GetSecret, call_Authorizations_Check,
    call_GetOrgMembership, call_GetGithubClientFromToken, call_triage,
    call_GetMetadataResponseOnProducts, w_Write,
    ReadAll_Body, Close_Body, http_Error, return_, panic, emit, getRequest,
    setBody, modifyResponse, getResponse, initial,
    mbind, Handler_bind, mret, Handler_ret.

Ltac split_passes :=
  unfold authorized, passes_token_check, passes_secret, passes_session,
    passes_decode, passes_close, passes_read, passes_content_type,
    passes_method, read_outcome, close_outcome in *;
  repeat match goal with
         | H : ∃ _, _ |- _ => destruct H as [? H]
         | H : _ ∧ _ |- _ => destruct H as [? ?]
         end.

(** One step of a run along the branch the hypotheses select. *)
Ltac run_step :=
  match goal with
  | |- context [decide ?P] => destruct (decide P); try (done || congruence || tauto)
  | |- context [ioutil.ReadAll ?b] =>
      destruct (ioutil.ReadAll b) as [[? ?] ?] eqn:?; simpl in *; simplify_eq
  | |- context [Close ?b] =>
      destruct (Close b) as [? ?] eqn:?; simpl in *; simplify_eq
  | H : ?x = _ |- context [?x] => rewrite H
  end; cbn.

Ltac run := unfold_handlers; cbn; repeat run_step.

(** All the branches of a run. *)
Ltac run_all :=
  unfold_handlers; cbn;
  repeat (case_match; cbn in *; simplify_eq/=; try done).

Lemma not_ne_eq (x y : string) : ¬ x ≠ y → x = y.
Proof. intros H. by destruct (decide (x = y)). Qed.

Lemma not_ne_eq_Z (x y : Z) : ¬ x ≠ y → x = y.
Proof. intros H. by destruct (decide (x = y)). Qed.

(** ** The triage handler *)

(** The checks of the triage handler in their order, stated on what the
    collaborators return to it: the first check that fails ends the run
    with its own answer and no later call.  The two 400 answers of the
    remote checks are given for a response returned without error whose
    status is not 200; which replies of the remote API reach that branch
    is settled by [github_Do]. *)
Theorem triage_authorization_sequence (env : Env) (r : http.Request) :
  (¬ passes_method r →
   rejected (run_triage env r) 400
     "Invalid HTTP method; only accpet PATCH request" []) ∧
  (passes_method r → ¬ passes_content_type r →
   rejected (run_triage env r) 400
     ("Invalid content-type: %s" +:+ http.Header_Get (http.Header r) "Content-Type")
     []) ∧
  (passes_content_type r →
   ∀ data e, read_outcome r = (data, Some e) →
   rejected (run_triage env r) 500 "Failed to read PATCH request body" []) ∧
  (∀ data, passes_read r data →
   ∀ e, close_outcome r = Some e →
   rejected (run_triage env r) 500 "Failed to finish reading request body" []) ∧
  (∀ data, passes_close r data →
   ∀ e, json_Unmarshal_MetadataResults env data = Err e →
   rejected (run_triage env r) 400 ("Failed to parse JSON: " +:+ e) []) ∧
  (∀ metadata, passes_decode env r metadata →
   ∀ user token, GetUserFromCookie env (http.Header r) = (user, token) →
   user = None ∨ token = None →
   rejected (run_triage env r) 400 "User is not logged in"
     [CallGetUserFromCookie]) ∧
  (∀ metadata user token clientID,
   passes_secret env r metadata user token clientID →
   (∀ e, Authorizations_Check env {| credential := token |} clientID token = Err e →
    rejected (run_triage env r) 500 ("Fail to validate user token " +:+ e)
      (take 3 (authorization_calls token clientID))) ∧
   (∀ res, Authorizations_Check env {| credential := token |} clientID token = Ok res →
    StatusCode res ≠ http.StatusOK →
    rejected (run_triage env r) 400 "User token invalid; please log in again. "
      (take 3 (authorization_calls token clientID)))) ∧
  (∀ metadata user token clientID,
   passes_token_check env r metadata user token clientID →
   (∀ e, Organizations_GetOrgMembership env {| credential := token |} ""
           "web-platform-tests" = Err e →
    rejected (run_triage env r) 500
      ("Fail to validate web-platform-tests membership: " +:+ e)
      (authorization_calls token clientID)) ∧
   (∀ res, Organizations_GetOrgMembership env {| credential := token |} ""
             "web-platform-tests" = Ok res →
    StatusCode res ≠ http.StatusOK →
    rejected (run_triage env r) 400 "User is not a part of web-platform-tests"
      (authorization_calls token clientID))) ∧
  (submits (run_triage env r) = true →
   ∃ metadata user token clientID, authorized env r metadata user token clientID).
Proof.
  split_and!.
  - intros H. split_passes. by run.
  - intros H1 H2. unfold passes_content_type in H2. split_passes.
    by run.
  - intros H data e He. split_passes. by run.
  - intros data H e He. split_passes. by run.
  - intros data H e He. split_passes. by run.
  - intros metadata H user token Hu Hnil. split_passes. run.
    by destruct Hnil as [-> | ->]; [|destruct user].
  - intros metadata user token clientID H. split; [intros e He | intros res He Hs];
      split_passes; by run.
  - intros metadata user token clientID H. split; [intros e He | intros res He Hs];
      split_passes; by run.
  - unfold submits. run_all.
    all: intros _; eexists _, _, _, _; unfold authorized, passes_token_check,
      passes_secret, passes_session, passes_decode, passes_close, passes_read,
      passes_content_type, passes_method, read_outcome, close_outcome.
    all: repeat match goal with
           | H : ioutil.ReadAll _ = _ |- _ => rewrite H; simpl
           | H : Close _ = _ |- _ => rewrite H; simpl
           end.
    all: repeat (split || eexists); eauto using not_ne_eq, not_ne_eq_Z.
Qed.

(** C1.  The sequence of checks holds up to the remote checks, where the
    handler misses the 400 it is written to give.  For a request that has
    passed the checks before it, a token check that the remote API
    answers with a status outside the 200 range (404 for a token that is
    no longer valid) reaches the handler as an error of the client, which
    the handler tests first: the run ends with 500 and the client's
    error text, and the "User token invalid" answer is given only for a
    reply in the 200 range other than 200.  The membership check behaves
    the same: a reply outside the 200 range (404 for a user who is not a
    member) ends the run with 500, and the "not a part of" answer is
    given only for a reply in the 200 range other than 200. *)
Theorem triage_refused_reply_is_answered_500
    (env : Env) (r : http.Request) (metadata : MetadataResults)
    (user : User) (token clientID : string) :
  passes_secret env r metadata user token clientID →
  (∀ status description,
     Authorizations_Check env {| credential := token |} clientID token =
       github_Do (Reply status description) →
     (¬ (200 ≤ status ≤ 299)%Z →
      rejected (run_triage env r) 500
        ("Fail to validate user token " +:+ description)
        (take 3 (authorization_calls token clientID))) ∧
     (w (run_triage env r).2 =
        {| http.Code := Some http.StatusBadRequest;
           http.Written := "User token invalid; please log in again. " +:+ LF |} →
      (200 ≤ status ≤ 299)%Z ∧ status ≠ 200%Z)) ∧
  (∀ status description,
     passes_token_check env r metadata user token clientID →
     Organizations_GetOrgMembership env {| credential := token |} ""
       "web-platform-tests" = github_Do (Reply status description) →
     (¬ (200 ≤ status ≤ 299)%Z →
      rejected (run_triage env r) 500
        ("Fail to validate web-platform-tests membership: " +:+ description)
        (authorization_calls token clientID)) ∧
     (w (run_triage env r).2 =
        {| http.Code := Some http.StatusBadRequest;
           http.Written := "User is not a part of web-platform-tests" +:+ LF |} →
      (200 ≤ status ≤ 299)%Z ∧ status ≠ 200%Z)).
Proof.
  intros Hp. split.
  - intros status description Hcheck. unfold github_Do in Hcheck.
    destruct (decide ((200 ≤ status ≤ 299)%Z ∧ status ≠ 202%Z)) as [[Hr H202]|Hn].
    + split; [tauto |]. split; [done |]. intros ->. revert H.
      split_passes. unfold_handlers; cbn. repeat run_step.
      repeat (case_match; cbn in *; simplify_eq/=; try done).
    + split.
      * intros _. split_passes. by run.
      * intros H. exfalso. revert H. split_passes. by run.
  - intros status description Hp' Hcheck. unfold github_Do in Hcheck.
    destruct (decide ((200 ≤ status ≤ 299)%Z ∧ status ≠ 202%Z)) as [[Hr H202]|Hn].
    + split; [tauto |]. split; [done |]. intros ->. revert H.
      split_passes. unfold_handlers; cbn. repeat run_step.
      repeat (case_match; cbn in *; simplify_eq/=; try done).
    + split.
      * intros _. split_passes. by run.
      * intros H. exfalso. revert H. split_passes. by run.
Qed.

Lemma triage_refused_reply_is_answered_500_witness :
  passes_secret invalid_token_env (triage_request "{}") ∅ sample_user
    "user-token" "client-id" ∧
  rejected (run_triage invalid_token_env (triage_request "{}")) 500
    ("Fail to validate user token " +:+
     "GET https://api.github.com/applications/client-id/tokens/user-token: 404 Not Found []")
    [CallGetUserFromCookie; CallGetSecret "github-oauth-client-id";
     CallAuthorizationsCheck {| credential := "user-token" |} "client-id" "user-token"].
Proof.
  assert (passes_secret invalid_token_env (triage_request "{}") ∅ sample_user
            "user-token" "client-id") as Hp.
  { unfold passes_secret, passes_session, passes_decode, passes_close,
      passes_read, passes_content_type, passes_method.
    repeat (split || eexists). }
  split; [exact Hp |].
  destruct (triage_refused_reply_is_answered_500 invalid_token_env
              (triage_request "{}") ∅ sample_user "user-token" "client-id" Hp)
    as [Htoken _].
  destruct (Htoken 404%Z
              "GET https://api.github.com/applications/client-id/tokens/user-token: 404 Not Found []"
              eq_refl) as [H500 _].
  apply H500. lia.
Defined.

(** A malformed body alone does not decide the answer: a PATCH request
    with another content type and a body that does not decode is answered
    with the content-type message. *)
Lemma malformed_body_wrong_content_type :
  malformed_body good_env text_plain_request ∧
  rejected (run_triage good_env text_plain_request) 400
    "Invalid content-type: %stext/plain" [] ∧
  ¬ answers_parse_failure good_env text_plain_request.
Proof.
  split_and!.
  - by eexists.
  - by vm_compute.
  - intros (e & _ & Hw). vm_compute in Hw. discriminate Hw.
Qed.

(** C5 (amended).  A triage request that passes the method and
    content-type checks and whose body is read and closed without error
    but does not decode is answered 400 with the message naming the parse
    failure; and whenever the body of a triage request does not decode,
    no operation of the remote hosting API (token check, membership
    check, submission) is invoked, whatever the answer is. *)
Theorem malformed_triage_body_never_reaches_remote (env : Env) (r : http.Request) :
  (∀ data e, passes_close r data →
     json_Unmarshal_MetadataResults env data = Err e →
     rejected (run_triage env r) 400 ("Failed to parse JSON: " +:+ e) []) ∧
  (malformed_body env r → calls_remote (run_triage env r) = false).
Proof.
  split.
  - intros data e H He. split_passes. by run.
  - intros [e He]. unfold read_outcome in He. unfold calls_remote.
    run_all.
    all: match goal with
         | H : ioutil.ReadAll _ = _ |- _ => rewrite H in He; simpl in He
         end; congruence.
Qed.

(** C10.  A triage request that has passed the method, content-type,
    body and session checks looks up the secret "github-oauth-client-id"
    right after the session lookup, before any call to the remote hosting
    API; if the lookup fails the request is answered 500 with a message
    that begins "Failed to get github-oauth-client-id secret: " and no
    remote call is made. *)
Theorem triage_secret_lookup_precedes_remote_calls
    (env : Env) (r : http.Request) (metadata : MetadataResults)
    (user : User) (token : string) :
  passes_session env r metadata user token →
  (∃ rest, log (run_triage env r).2 =
           [CallGetUserFromCookie; CallGetSecret "github-oauth-client-id"] ++ rest) ∧
  (∀ e, GetSecret env "github-oauth-client-id" = Err e →
     rejected (run_triage env r) 500
       ("Failed to get github-oauth-client-id secret: " +:+ e)
       [CallGetUserFromCookie; CallGetSecret "github-oauth-client-id"] ∧
     HasPrefix (http.Written (w (run_triage env r).2))
       "Failed to get github-oauth-client-id secret: " = true ∧
     calls_remote (run_triage env r) = false).
Proof.
  intros H. split.
  - split_passes. run. run_all; eauto.
  - intros e He. split_passes. unfold calls_remote. by run.
Qed.

(** C9.  For an authorized triage request the submission decides the
    answer: if the service credential cannot be acquired the answer is
    500 with its own message and no submission is attempted; if the
    submission fails the answer is 500 with a message wrapping the error;
    if it succeeds the answer is 201 with an empty body.  The two failure
    messages differ whatever the errors are. *)
Theorem triage_submission_outcome
    (env : Env) (r : http.Request) (metadata : MetadataResults)
    (user : User) (token clientID : string) :
  authorized env r metadata user token clientID →
  (∀ e, GetGithubClientFromToken env "github-wpt-fyi-bot-token" = Err e →
     rejected (run_triage env r) 500 ("Unable to get Github Client: " +:+ e)
       (authorization_calls token clientID ++
        [CallGetGithubClientFromToken "github-wpt-fyi-bot-token"]) ∧
     submits (run_triage env r) = false) ∧
  (∀ bot, GetGithubClientFromToken env "github-wpt-fyi-bot-token" = Ok bot →
     (∀ e, triage env bot (GitHubHandle user) (GithuhEmail user) metadata = Some e →
        rejected (run_triage env r) 500 ("Unable to triage metadata: " +:+ e)
          (authorization_calls token clientID ++
           [CallGetGithubClientFromToken "github-wpt-fyi-bot-token";
            CallTriage bot (GitHubHandle user) (GithuhEmail user) metadata])) ∧
     (triage env bot (GitHubHandle user) (GithuhEmail user) metadata = None →
        (run_triage env r).1 = Continue tt ∧
        w (run_triage env r).2 =
          {| http.Code := Some http.StatusCreated; http.Written := "" |} ∧
        log (run_triage env r).2 =
          authorization_calls token clientID ++
          [CallGetGithubClientFromToken "github-wpt-fyi-bot-token";
           CallTriage bot (GitHubHandle user) (GithuhEmail user) metadata])) ∧
  (∀ e1 e2 : string,
     "Unable to get Github Client: " +:+ e1 +:+ LF ≠
     "Unable to triage metadata: " +:+ e2 +:+ LF).
Proof.
  intros H. split_and!.
  - intros e He. split_passes. unfold submits. by run.
  - intros bot Hbot. split; [intros e He | intros He]; split_passes; by run.
  - intros e1 e2 Heq. simpl in Heq. discriminate Heq.
Qed.

(** ** The metadata handler *)

(** C4.  For a POST request whose body has been read and closed, the
    body must decode as a query whose argument list is exactly one link
    atom: a body that does not decode is answered 400 with the decoder's
    error; a decoded query whose argument list is empty, has more than
    one argument, or has one argument that is not a link atom is answered
    400 with the "non Link search query" message; in neither case is the
    metadata fetched, and a run that fetches the metadata has decoded a
    query with exactly one link atom. *)
Theorem metadata_post_requires_one_link_query
    (env : Env) (h : MetadataHandler) (r : http.Request) (data : string) :
  http.Method r = "POST" →
  read_outcome r = (data, None) →
  close_outcome r = None →
  (∀ e, json_Unmarshal_AbstractExists env data = Err e →
     rejected (run_metadata env h r) 400 e [] ∧
     fetches (run_metadata env h r) = false) ∧
  (∀ ae, json_Unmarshal_AbstractExists env data = Ok ae →
     Args ae = [] ∨ (1 < length (Args ae))%nat ∨ (∃ kind, Args ae = [OtherQuery kind]) →
     rejected (run_metadata env h r) 400
       "Error from request: non Link search query for api/metadata"
       [LogErrorf "Error from request: non Link search query %s for api/metadata"
          [ArgQuery ae]] ∧
     fetches (run_metadata env h r) = false) ∧
  (fetches (run_metadata env h r) = true →
     ∃ ae l, json_Unmarshal_AbstractExists env data = Ok ae ∧
             Args ae = [LinkQuery l]).
Proof.
  intros Hm Hr Hc. unfold read_outcome, close_outcome, fetches in *. split_and!.
  - intros e He. by run.
  - intros ae He Hargs. run.
    destruct Hargs as [Ha | [Ha | [kind Ha]]].
    + by rewrite Ha.
    + destruct (Args ae) as [|a1 [|a2 rest]]; simpl in Ha; [lia | lia | done].
    + by rewrite Ha.
  - run. destruct (json_Unmarshal_AbstractExists env data) as [ae|err] eqn:He; cbn;
      [|done].
    destruct (Args ae) as [|[l|kind] [|a2 rest]] eqn:Ha; cbn; try done.
    intros _. by exists ae, l.
Qed.

(** Behind the caching handler the same holds for the endpoint: on a
    cache miss a POST whose body was read by [cacheKey] is handed to the
    metadata handler with a body it can read and close, the bad query is
    answered 400, nothing is fetched and nothing is stored. *)
Lemma apiMetadataHandler_rejects_bad_query (env : Env) (s : State) (data : string) :
  http.Method (req s) = "POST" →
  read_outcome (req s) = (data, None) →
  cache s !! (http.URL_String (http.RequestURL (req s)) +:+ "#" +:+ data) = None →
  w s = http.NewResponse →
  (∀ e, json_Unmarshal_AbstractExists env data = Err e →
     w (apiMetadataHandler env s).2 =
       {| http.Code := Some 400%Z; http.Written := e +:+ LF |} ∧
     cache (apiMetadataHandler env s).2 = cache s ∧
     log (apiMetadataHandler env s).2 =
       log s ++
       [CallCacheGet (http.URL_String (http.RequestURL (req s)) +:+ "#" +:+ data)]) ∧
  (∀ ae, json_Unmarshal_AbstractExists env data = Ok ae →
     (∀ l, Args ae ≠ [LinkQuery l]) →
     w (apiMetadataHandler env s).2 =
       {| http.Code := Some 400%Z;
          http.Written :=
            "Error from request: non Link search query for api/metadata" +:+ LF |} ∧
     cache (apiMetadataHandler env s).2 = cache s ∧
     log (apiMetadataHandler env s).2 =
       log s ++
       [CallCacheGet (http.URL_String (http.RequestURL (req s)) +:+ "#" +:+ data);
        LogErrorf "Error from request: non Link search query %s for api/metadata"
          [ArgQuery ae]]).
Proof.
  intros Hm Hr Hc Hw. unfold read_outcome in *. split.
  - intros e He.
    unfold apiMetadataHandler, cachingHandler_ServeHTTP, call, cache_get,
      cache_set, getCache, setCache.
    run.
    + match goal with
      | H : http.Code _ = Some http.StatusOK |- _ => rewrite Hw in H; discriminate H
      end.
    + done.
  - intros ae He Hargs.
    unfold apiMetadataHandler, cachingHandler_ServeHTTP, call, cache_get,
      cache_set, getCache, setCache.
    run.
    destruct (Args ae) as [|[l|kind] [|a2 rest]] eqn:Ha; cbn;
      try (by destruct (Hargs l)).
    all: rewrite ?Hw; cbn; by rewrite <- ?app_assoc.
Qed.

(** ** The cache key *)

(** Reading consumes the stream: a second [ReadAll] of the server's body
    finds nothing. *)
Lemma ReadAll_is_destructive (data : string) :
  (ioutil.ReadAll (good_body data)).1 = (data, None) ∧
  (ioutil.ReadAll (ioutil.ReadAll (good_body data)).2).1 = ("", None).
Proof. done. Qed.

(** C2.  For a GET request the cache key is the canonical URL string
    and the request, its body included, is left as it was; for any other
    request (POST, in this endpoint) whose body is read without error,
    the key is the URL string, "#", and the body bytes, and the request
    is left with a body from which the same bytes can be read, and
    closed, again. *)
Theorem cacheKey_derivation (s : State) :
  (http.Method (req s) = "GET" →
     cacheKey s = (Continue (http.URL_String (http.RequestURL (req s))), s)) ∧
  (http.Method (req s) ≠ "GET" →
   ∀ data, read_outcome (req s) = (data, None) →
     ∃ s', cacheKey s =
             (Continue (http.URL_String (http.RequestURL (req s)) +:+ "#" +:+ data), s') ∧
           http.Body (req s') = ioutil.NopCloser data ∧
           read_outcome (req s') = (data, None) ∧
           close_outcome (req s') = None ∧
           http.Method (req s') = http.Method (req s) ∧
           http.RequestURL (req s') = http.RequestURL (req s) ∧
           http.Header (req s') = http.Header (req s) ∧
           w s' = w s ∧ cache s' = cache s ∧ log s' = log s).
Proof.
  split.
  - intros Hm. by run.
  - intros Hm data Hr. unfold read_outcome in *. run.
    eexists. split; [done |]. by cbn.
Qed.

(** C6.  If the body of a non-GET request cannot be read while the cache
    key is derived, [cacheKey] reports the failure to the logger and
    panics with the same message instead of returning a key; in
    [apiMetadataHandler] the panic unwinds through the caching handler:
    nothing is written to the response, the cache is neither read nor
    written, and the metadata handler is not run. *)
Theorem cacheKey_read_failure_is_fatal
    (env : Env) (s : State) (data e : string) :
  http.Method (req s) ≠ "GET" →
  read_outcome (req s) = (data, Some e) →
  (∃ s', cacheKey s =
           (Panic ("Failed to read non-GET request body for generating cache key: " +:+ e),
            s') ∧
         log s' = log s ++
           [LogErrorf ("Failed to read non-GET request body for generating cache key: "
                       +:+ e) []] ∧
         w s' = w s ∧ cache s' = cache s) ∧
  (http.Method (req s) = "POST" →
   ∃ s', apiMetadataHandler env s =
           (Panic ("Failed to read non-GET request body for generating cache key: " +:+ e),
            s') ∧
         log s' = log s ++
           [LogErrorf ("Failed to read non-GET request body for generating cache key: "
                       +:+ e) []] ∧
         w s' = w s ∧ cache s' = cache s).
Proof.
  intros Hm Hr. unfold read_outcome in *. split.
  - run. eexists. by split.
  - intros Hpost. unfold apiMetadataHandler, cachingHandler_ServeHTTP, call.
    run. eexists. by split.
Qed.

(** ** The theorems at sample requests *)

Ltac compute_passes :=
  unfold authorized, passes_token_check, passes_secret, passes_session,
    passes_decode, passes_close, passes_read, passes_content_type, passes_method;
  repeat (split || eexists).

Lemma filterMetadata_does_not_mutate_input_witness :
  valid_ref sample_heap (Some 1%positive) ∧
  ∀ res h', filterMetadata_heap sample_link (Some 1%positive) sample_heap = (res, h') →
    map_contents h' (Some 1%positive) = sample_metadata ∧
    h' !! res = Some (filterMetadata sample_link sample_metadata).
Proof.
  assert (valid_ref sample_heap (Some 1%positive)) as Hv.
  { vm_compute. eauto. }
  split; [exact Hv |].
  intros res h' Hrun.
  destruct (filterMetadata_does_not_mutate_input sample_link (Some 1%positive)
              sample_heap Hv res h' Hrun) as (_ & _ & _ & Hin & Hres & _).
  split; [exact Hin | exact Hres].
Defined.

Lemma malformed_triage_body_never_reaches_remote_witness :
  passes_close (triage_request "{") "{" ∧
  rejected (run_triage good_env (triage_request "{")) 400
    "Failed to parse JSON: unexpected end of JSON input" [] ∧
  calls_remote (run_triage good_env (triage_request "{")) = false.
Proof.
  assert (passes_close (triage_request "{") "{") as Hp.
  { compute_passes. }
  destruct (malformed_triage_body_never_reaches_remote good_env (triage_request "{"))
    as [Hreject Hremote].
  split_and!.
  - exact Hp.
  - apply (Hreject "{" "unexpected end of JSON input" Hp). reflexivity.
  - apply Hremote. exists "unexpected end of JSON input". reflexivity.
Defined.

Lemma triage_secret_lookup_precedes_remote_calls_witness :
  passes_session no_secret_env (triage_request "{}") ∅ sample_user "user-token" ∧
  rejected (run_triage no_secret_env (triage_request "{}")) 500
    "Failed to get github-oauth-client-id secret: datastore: no such entity"
    [CallGetUserFromCookie; CallGetSecret "github-oauth-client-id"].
Proof.
  assert (passes_session no_secret_env (triage_request "{}") ∅ sample_user
            "user-token") as Hp.
  { compute_passes. }
  split; [exact Hp |].
  destruct (triage_secret_lookup_precedes_remote_calls no_secret_env
              (triage_request "{}") ∅ sample_user "user-token" Hp) as [_ Hfail].
  apply (Hfail "datastore: no such entity"). reflexivity.
Defined.

Lemma triage_submission_outcome_witness :
  authorized good_env (triage_request "{}") ∅ sample_user "user-token" "client-id" ∧
  w (run_triage good_env (triage_request "{}")).2 =
    {| http.Code := Some 201%Z; http.Written := "" |}.
Proof.
  assert (authorized good_env (triage_request "{}") ∅ sample_user "user-token"
            "client-id") as Hp.
  { compute_passes. }
  split; [exact Hp |].
  destruct (triage_submission_outcome good_env (triage_request "{}") ∅ sample_user
              "user-token" "client-id" Hp) as (_ & Hbot & _).
  destruct (Hbot {| credential := "bot-token" |} eq_refl) as [_ Hok].
  destruct (Hok eq_refl) as (_ & Hw & _). exact Hw.
Defined.

Lemma metadata_post_requires_one_link_query_witness :
  rejected
    (run_metadata good_env {| metadataURL := "https://example.com/metadata.zip" |}
       (post_request (good_body "and")))
    400 "Error from request: non Link search query for api/metadata"
    [LogErrorf "Error from request: non Link search query %s for api/metadata"
       [ArgQuery {| Args := [OtherQuery "and"] |}]].
Proof.
  destruct (metadata_post_requires_one_link_query good_env
              {| metadataURL := "https://example.com/metadata.zip" |}
              (post_request (good_body "and")) "and" eq_refl eq_refl eq_refl)
    as (_ & Hnonlink & _).
  destruct (Hnonlink {| Args := [OtherQuery "and"] |} eq_refl) as [Hr _].
  - right. right. by exists "and".
  - exact Hr.
Defined.

Lemma cacheKey_derivation_witness :
  ∃ s', cacheKey (initial (post_request (good_body "link")) ∅) =
          (Continue "/api/metadata?product=chrome#link", s') ∧
        read_outcome (req s') = ("link", None).
Proof.
  destruct (cacheKey_derivation (initial (post_request (good_body "link")) ∅))
    as [_ Hpost].
  destruct (Hpost ltac:(vm_compute; discriminate) "link" eq_refl)
    as (s' & Hkey & _ & Hread & _).
  exists s'. split; [exact Hkey | exact Hread].
Defined.

Lemma cacheKey_read_failure_is_fatal_witness :
  ∃ s', apiMetadataHandler good_env (initial (post_request (broken_body "li")) ∅) =
          (Panic "Failed to read non-GET request body for generating cache key: unexpected EOF",
           s') ∧
        w s' = http.NewResponse.
Proof.
  destruct (cacheKey_read_failure_is_fatal good_env
              (initial (post_request (broken_body "li")) ∅) "li" "unexpected EOF"
              ltac:(vm_compute; discriminate) eq_refl) as [_ Hpanic].
  destruct (Hpanic eq_refl) as (s' & Hrun & _ & Hw & _).
  exists s'. split; [exact Hrun | exact Hw].
Defined.

(** ** Sample runs *)

(** The filter on the two-entry mapping keeps the entry whose link
    contains the pattern. *)
Example filterMetadata_sample :
  filterMetadata sample_link sample_metadata =
  {[ "test1" := [ {| URL := "https://github.com/issue/1"; Annotations := [] |} ] ]}.
Proof. by vm_compute. Qed.

(** A GET on an empty cache fetches once and stores the answer; the same
    request against the resulting cache is answered without a fetch. *)
Example apiMetadataHandler_caches_GET :
  let first := apiMetadataHandler good_env (initial get_request ∅) in
  let second := apiMetadataHandler good_env (initial get_request (cache first.2)) in
  log first.2 =
    [CallCacheGet "/api/metadata?product=chrome";
     CallGetMetadataResponseOnProducts ["chrome"] "https://example.com/metadata.zip";
     CallCacheSet "/api/metadata?product=chrome"] ∧
  log second.2 = [CallCacheGet "/api/metadata?product=chrome"] ∧
  w second.2 = w first.2.
Proof. by vm_compute. Qed.

(** A POST with a link query is keyed by URL and body, and the metadata
    handler behind the cache still reads the whole body. *)
Example apiMetadataHandler_POST_link :
  let out := apiMetadataHandler good_env (initial (post_request (good_body "link")) ∅) in
  log out.2 =
    [CallCacheGet "/api/metadata?product=chrome#link";
     CallGetMetadataResponseOnProducts ["chrome"] "https://example.com/metadata.zip";
     CallCacheSet "/api/metadata?product=chrome#link"] ∧
  http.Code (w out.2) = Some 200%Z.
Proof. by vm_compute. Qed.

(** A triage request without a session cookie is not logged in. *)
Example triage_without_cookie :
  rejected (run_triage good_env anonymous_request) 400 "User is not logged in"
    [CallGetUserFromCookie].
Proof. by vm_compute. Qed.

(** ** More on the link filter *)

Lemma string_app_assoc (a b c : string) : (a +:+ b) +:+ c = a +:+ b +:+ c.
Proof.
  induction a as [|x a IH]; [done |].
  change (String x ((a +:+ b) +:+ c) = String x (a +:+ b +:+ c)).
  by f_equal.
Qed.

(** A substring of a substring is a substring. *)
Lemma Contains_trans (s q p : string) :
  Contains s q = true → Contains q p = true → Contains s p = true.
Proof.
  rewrite !Contains_spec. intros (a & b & ->) (c & d & ->).
  exists (a +:+ c), (d +:+ b). by rewrite !string_app_assoc.
Qed.

Lemma anyLinkContains_mono (p q : string) (links : MetadataLinks) :
  Contains q p = true →
  anyLinkContains q links = true → anyLinkContains p links = true.
Proof.
  intros Hqp. unfold anyLinkContains. rewrite !existsb_exists.
  intros (link & Hin & Hc). exists link. eauto using Contains_trans.
Qed.

(** X1.  The iteration order of [range] over the map, which Go leaves
    unspecified, does not show in the result: the loop run over any
    ordering of the entries of the map builds the same mapping. *)
Theorem filterMetadata_any_iteration_order (lq : AbstractLink) (m : MetadataResults)
    (entries1 entries2 : list (string * MetadataLinks)) :
  entries1 ≡ₚ map_to_list m →
  entries2 ≡ₚ map_to_list m →
  filterMetadata_range lq entries1 = filterMetadata_range lq entries2.
Proof.
  intros H1 H2.
  by rewrite (filterMetadata_range_order lq m entries1 H1),
             (filterMetadata_range_order lq m entries2 H2).
Qed.

Lemma filterMetadata_any_iteration_order_witness :
  filterMetadata_range sample_link (reverse (map_to_list sample_metadata)) =
  filterMetadata_range sample_link (map_to_list sample_metadata).
Proof.
  apply (filterMetadata_any_iteration_order sample_link sample_metadata).
  - apply reverse_Permutation.
  - reflexivity.
Defined.

(** X2.  Two link filters commute, and together they retain exactly the
    entries that have a link matching the one pattern and a link matching
    the other (not necessarily the same link). *)
Theorem filterMetadata_comm (p q : AbstractLink) (m : MetadataResults) :
  filterMetadata p (filterMetadata q m) = filterMetadata q (filterMetadata p m) ∧
  ∀ test links,
    filterMetadata p (filterMetadata q m) !! test = Some links ↔
    m !! test = Some links ∧
    anyLinkContains (Pattern p) links = true ∧
    anyLinkContains (Pattern q) links = true.
Proof.
  split.
  - apply map_eq. intros t. rewrite !filterMetadata_lookup.
    destruct (m !! t) as [links|]; [|done].
    destruct (anyLinkContains (Pattern p) links) eqn:Ep,
             (anyLinkContains (Pattern q) links) eqn:Eq; by rewrite ?Ep, ?Eq.
  - intros test links. rewrite !filterMetadata_lookup_Some. tauto.
Qed.

(** X3.  A longer pattern retains less: when the pattern of [p] occurs in
    the pattern of [q], every entry retained for [q] is retained, with
    the same links, for [p]. *)
Theorem filterMetadata_antitone (p q : AbstractLink) (m : MetadataResults) :
  Contains (Pattern q) (Pattern p) = true →
  filterMetadata q m ⊆ filterMetadata p m.
Proof.
  intros Hqp. apply map_subseteq_spec. intros t links.
  rewrite !filterMetadata_lookup_Some. intros [Hm Hq].
  eauto using anyLinkContains_mono.
Qed.

Lemma filterMetadata_antitone_witness :
  filterMetadata sample_link sample_metadata ⊆
  filterMetadata {| Pattern := "github" |} sample_metadata.
Proof.
  apply (filterMetadata_antitone {| Pattern := "github" |} sample_link).
  vm_compute. reflexivity.
Defined.

(** X4.  Filtering follows updates of the mapping entry by entry: adding
    or replacing an entry adds or replaces it in the filtered mapping if
    one of its links matches and removes it otherwise, and deleting an
    entry deletes it from the filtered mapping. *)
Theorem filterMetadata_insert_delete (lq : AbstractLink) (m : MetadataResults)
    (test : string) (links : MetadataLinks) :
  filterMetadata lq (<[test := links]> m) =
    (if anyLinkContains (Pattern lq) links
     then <[test := links]> (filterMetadata lq m)
     else delete test (filterMetadata lq m)) ∧
  filterMetadata lq (delete test m) = delete test (filterMetadata lq m).
Proof.
  split; apply map_eq; intros t.
  - rewrite filterMetadata_lookup.
    destruct (decide (test = t)) as [->|Hne].
    + rewrite lookup_insert_eq.
      destruct (anyLinkContains (Pattern lq) links).
      * by rewrite lookup_insert_eq.
      * by rewrite lookup_delete_eq.
    + rewrite lookup_insert_ne by done.
      destruct (anyLinkContains (Pattern lq) links).
      * by rewrite lookup_insert_ne, filterMetadata_lookup.
      * by rewrite lookup_delete_ne, filterMetadata_lookup.
  - rewrite filterMetadata_lookup.
    destruct (decide (test = t)) as [->|Hne].
    + by rewrite !lookup_delete_eq.
    + by rewrite !lookup_delete_ne, filterMetadata_lookup.
Qed.

(** X5.  The filter returns its input unchanged exactly when every entry
    has a matching link, and the empty mapping exactly when no entry has
    one; in particular an empty mapping is filtered to an empty
    mapping. *)
Theorem filterMetadata_all_or_nothing (lq : AbstractLink) (m : MetadataResults) :
  (filterMetadata lq m = m ↔
   ∀ test links, m !! test = Some links →
                 anyLinkContains (Pattern lq) links = true) ∧
  (filterMetadata lq m = ∅ ↔
   ∀ test links, m !! test = Some links →
                 anyLinkContains (Pattern lq) links = false) ∧
  filterMetadata lq ∅ = ∅.
Proof.
  split_and!.
  - split.
    + intros Heq test links Hm. rewrite <- Heq in Hm.
      by apply filterMetadata_lookup_Some in Hm as [_ ?].
    + intros Hall. apply map_eq. intros t. rewrite filterMetadata_lookup.
      destruct (m !! t) as [links|] eqn:E; [|done].
      by rewrite (Hall t links E).
  - split.
    + intros Heq test links Hm.
      destruct (anyLinkContains (Pattern lq) links) eqn:Ea; [|done].
      assert (filterMetadata lq m !! test = Some links) as Hin
        by by apply filterMetadata_lookup_Some.
      by rewrite Heq, lookup_empty in Hin.
    + intros Hnone. apply map_eq. intros t.
      rewrite filterMetadata_lookup, lookup_empty.
      destruct (m !! t) as [links|] eqn:E; [|done].
      by rewrite (Hnone t links E).
  - apply map_eq. intros t. by rewrite filterMetadata_lookup, !lookup_empty.
Qed.

(** X6.  Given a nil or an empty mapping the filter still allocates: it
    returns a reference to a new, empty map object, never nil and never
    the input itself. *)
Theorem filterMetadata_of_nothing_is_a_new_empty_map
    (lq : AbstractLink) (metadata : MapRef) (h : Heap) :
  valid_ref h metadata →
  map_contents h metadata = ∅ →
  ∀ res h', filterMetadata_heap lq metadata h = (res, h') →
    h !! res = None ∧ metadata ≠ Some res ∧ h' !! res = Some ∅.
Proof.
  intros Hv Hempty res h' Hrun.
  rewrite (filterMetadata_heap_eq lq metadata h Hv), Hempty in Hrun.
  injection Hrun as <- <-.
  assert (h !! fresh (dom h) = None) as Hfresh.
  { apply not_elem_of_dom. apply is_fresh. }
  split_and!; [done | |].
  - intros ->. simpl in Hv. rewrite Hfresh in Hv. by destruct Hv.
  - by rewrite lookup_insert_eq.
Qed.

Lemma filterMetadata_of_nothing_is_a_new_empty_map_witness :
  (filterMetadata_heap sample_link None sample_heap).2
    !! (filterMetadata_heap sample_link None sample_heap).1 = Some ∅.
Proof.
  destruct (filterMetadata_of_nothing_is_a_new_empty_map sample_link None
              sample_heap I eq_refl
              (filterMetadata_heap sample_link None sample_heap).1
              (filterMetadata_heap sample_link None sample_heap).2
              (surjective_pairing _)) as (_ & _ & H).
  exact H.
Defined.

(** X7.  The input and the result are separate map objects: an entry
    stored in the result afterwards does not appear in the input, and an
    entry stored in the input afterwards does not appear in the
    result. *)
Theorem filterMetadata_result_is_separate
    (lq : AbstractLink) (l : loc) (h : Heap) :
  is_Some (h !! l) →
  ∀ res h', filterMetadata_heap lq (Some l) h = (res, h') →
  ∀ k v,
    map_contents (map_store res k v h') (Some l) = map_contents h (Some l) ∧
    map_contents (map_store l k v h') (Some res) =
      filterMetadata lq (map_contents h (Some l)) ∧
    map_contents (map_store res k v h') (Some res) !! k = Some v ∧
    map_contents (map_store l k v h') (Some l) !! k = Some v.
Proof.
  intros Hv res h' Hrun k v.
  rewrite (filterMetadata_heap_eq lq (Some l) h Hv) in Hrun.
  injection Hrun as <- <-.
  set (res := fresh (dom h)).
  assert (h !! res = None) as Hfresh.
  { apply not_elem_of_dom. apply is_fresh. }
  assert (l ≠ res) as Hne.
  { intros ->. rewrite Hfresh in Hv. by destruct Hv. }
  destruct Hv as [m Hm].
  unfold map_store, map_contents.
  rewrite lookup_insert_eq, (lookup_insert_ne _ res l) by done.
  rewrite Hm. simpl.
  rewrite !(lookup_insert_ne _ res l) by done. rewrite Hm. simpl.
  split_and!; by simplify_map_eq.
Qed.

Lemma filterMetadata_result_is_separate_witness :
  map_contents
    (map_store (filterMetadata_heap sample_link (Some 1%positive) sample_heap).1
       "test3" [] (filterMetadata_heap sample_link (Some 1%positive) sample_heap).2)
    (Some 1%positive) = sample_metadata.
Proof.
  assert (is_Some (sample_heap !! 1%positive)) as Hv.
  { vm_compute. eauto. }
  destruct (filterMetadata_result_is_separate sample_link 1%positive sample_heap
              Hv
              (filterMetadata_heap sample_link (Some 1%positive) sample_heap).1
              (filterMetadata_heap sample_link (Some 1%positive) sample_heap).2
              (surjective_pairing _) "test3" []) as (H & _).
  exact H.
Defined.

(** ** More on the cache key *)

Lemma string_app_inj (a x y : string) : a +:+ x = a +:+ y → x = y.
Proof.
  induction a as [|c a IH]; [done |].
  change (String c (a +:+ x) = String c (a +:+ y) → x = y).
  intros [= H]. by apply IH.
Qed.

Lemma string_app_nonempty_ne (a x : string) : x ≠ "" → a +:+ x ≠ a.
Proof.
  intros Hx. induction a as [|c a IH].
  - done.
  - change (String c (a +:+ x) ≠ String c a). intros [= H]. by apply IH.
Qed.

(** What [cacheKey] returns and leaves behind for a request that is not
    a GET and whose body is read without error. *)
Lemma cacheKey_non_GET (s : State) (data : string) :
  http.Method (req s) ≠ "GET" →
  read_outcome (req s) = (data, None) →
  cacheKey s =
  (Continue (http.URL_String (http.RequestURL (req s)) +:+ "#" +:+ data),
   {| req := with_Body (req s) (ioutil.NopCloser data);
      w := w s; cache := cache s; log := log s |}).
Proof. intros Hm Hr. unfold read_outcome in *. by run. Qed.

(** When [cacheKey] returns a key at all, the body was read. *)
Lemma cacheKey_Continue_inv (s s' : State) (key : string) :
  cacheKey s = (Continue key, s') →
  (http.Method (req s) = "GET" ∧ s' = s) ∨
  (http.Method (req s) ≠ "GET" ∧ ∃ data, read_outcome (req s) = (data, None)).
Proof.
  unfold read_outcome. intros Hrun.
  destruct (decide (http.Method (req s) = "GET")) as [Hm|Hm].
  - left. split; [done |]. revert Hrun. by run.
  - right. split; [done |]. revert Hrun. run.
    destruct o; cbn; [done |]. eauto.
Qed.

(** X8.  For requests that are not GET the body takes part in the key:
    two requests with the same URL whose keys are equal have the same
    body bytes, and the key is never the bare URL string. *)
Theorem cacheKey_separates_bodies (s1 s2 : State) (data1 data2 : string) :
  http.Method (req s1) ≠ "GET" →
  http.Method (req s2) ≠ "GET" →
  read_outcome (req s1) = (data1, None) →
  read_outcome (req s2) = (data2, None) →
  http.URL_String (http.RequestURL (req s1)) =
  http.URL_String (http.RequestURL (req s2)) →
  ((cacheKey s1).1 = (cacheKey s2).1 → data1 = data2) ∧
  (cacheKey s1).1 ≠ Continue (http.URL_String (http.RequestURL (req s1))).
Proof.
  intros Hm1 Hm2 Hr1 Hr2 Hurl.
  rewrite (cacheKey_non_GET s1 data1 Hm1 Hr1), (cacheKey_non_GET s2 data2 Hm2 Hr2).
  simpl. split.
  - rewrite Hurl. intros [= H]. apply string_app_inj in H. by injection H.
  - intros [= H]. by apply string_app_nonempty_ne in H.
Qed.

Lemma cacheKey_separates_bodies_witness :
  (cacheKey (initial (post_request (good_body "link")) ∅)).1 ≠
  Continue "/api/metadata?product=chrome".
Proof.
  destruct (cacheKey_separates_bodies
              (initial (post_request (good_body "link")) ∅)
              (initial (post_request (good_body "and")) ∅) "link" "and"
              ltac:(vm_compute; discriminate) ltac:(vm_compute; discriminate)
              eq_refl eq_refl eq_refl) as [_ H].
  exact H.
Defined.

(** X9.  Key derivation can be repeated: whenever [cacheKey] returns a
    key, running it again on the request it left behind returns the same
    key and leaves the request as it is. *)
Theorem cacheKey_repeatable (s s' : State) (key : string) :
  cacheKey s = (Continue key, s') →
  cacheKey s' = (Continue key, s').
Proof.
  intros Hrun.
  destruct (cacheKey_Continue_inv s s' key Hrun) as [[Hm ->] | [Hm [data Hr]]];
    [done |].
  rewrite (cacheKey_non_GET s data Hm Hr) in Hrun. injection Hrun as <- <-.
  set (s' := {| req := with_Body (req s) (ioutil.NopCloser data);
                w := w s; cache := cache s; log := log s |}).
  assert (http.Method (req s') ≠ "GET") as Hm' by done.
  assert (read_outcome (req s') = (data, None)) as Hr' by done.
  by rewrite (cacheKey_non_GET s' data Hm' Hr').
Qed.

Lemma cacheKey_repeatable_witness :
  cacheKey (initial (post_request (ioutil.NopCloser "link")) ∅) =
  (Continue "/api/metadata?product=chrome#link",
   initial (post_request (ioutil.NopCloser "link")) ∅).
Proof.
  apply (cacheKey_repeatable (initial (post_request (good_body "link")) ∅)).
  vm_compute. reflexivity.
Defined.

(** The metadata handler sees a request only through its method, its URL
    and what reading and closing its body return. *)
Lemma ServeHTTP_observes (env : Env) (h : MetadataHandler) (s1 s2 : State) :
  http.Method (req s1) = http.Method (req s2) →
  http.RequestURL (req s1) = http.RequestURL (req s2) →
  w s1 = w s2 →
  log s1 = log s2 →
  (http.Method (req s1) = "POST" →
   read_outcome (req s1) = read_outcome (req s2) ∧
   close_outcome (req s1) = close_outcome (req s2)) →
  (ServeHTTP env h s1).1 = (ServeHTTP env h s2).1 ∧
  w (ServeHTTP env h s1).2 = w (ServeHTTP env h s2).2 ∧
  log (ServeHTTP env h s1).2 = log (ServeHTTP env h s2).2.
Proof.
  destruct s1 as [[m1 u1 hd1 b1] w1 c1 l1], s2 as [[m2 u2 hd2 b2] w2 c2 l2].
  unfold read_outcome, close_outcome. simpl.
  intros <- <- <- <- Hbody.
  unfold_handlers; cbn.
  destruct (decide (m1 = "POST")) as [Hm|Hm]; cbn.
  - destruct (Hbody Hm) as [Hr Hc]. clear Hbody.
    destruct (ioutil.ReadAll b1) as [[d1 e1] b1'],
             (ioutil.ReadAll b2) as [[d2 e2] b2']; simpl in *.
    injection Hr as <- <-.
    destruct e1; cbn; [done |].
    destruct (Close b1') as [ce1 b1''], (Close b2') as [ce2 b2'']; simpl in *.
    subst ce2. destruct ce1; cbn; [done |].
    repeat (case_match; cbn in *; simplify_eq/=; try done).
  - repeat (case_match; cbn in *; simplify_eq/=; try done).
Qed.

(** X10.  Key derivation is transparent to the metadata handler: run on
    the request [cacheKey] leaves behind, the handler gives the control
    outcome, the response and the calls it gives on the original request,
    provided that closing the original body of a POST would not fail. *)
Theorem cacheKey_transparent_to_ServeHTTP
    (env : Env) (h : MetadataHandler) (s s' : State) (key : string) :
  cacheKey s = (Continue key, s') →
  (http.Method (req s) = "POST" → close_outcome (req s) = None) →
  (ServeHTTP env h s').1 = (ServeHTTP env h s).1 ∧
  w (ServeHTTP env h s').2 = w (ServeHTTP env h s).2 ∧
  log (ServeHTTP env h s').2 = log (ServeHTTP env h s).2.
Proof.
  intros Hrun Hclose.
  destruct (cacheKey_Continue_inv s s' key Hrun) as [[Hm ->] | [Hm [data Hr]]];
    [done |].
  rewrite (cacheKey_non_GET s data Hm Hr) in Hrun. injection Hrun as <- <-.
  apply ServeHTTP_observes; simpl; try done.
  intros Hpost. by rewrite Hr, (Hclose Hpost).
Qed.

Lemma cacheKey_transparent_to_ServeHTTP_witness :
  w (ServeHTTP good_env sample_handler
       (initial (post_request (ioutil.NopCloser "link")) ∅)).2 =
  w (run_metadata good_env sample_handler (post_request (good_body "link"))).2.
Proof.
  destruct (cacheKey_transparent_to_ServeHTTP good_env sample_handler
              (initial (post_request (good_body "link")) ∅)
              (initial (post_request (ioutil.NopCloser "link")) ∅)
              "/api/metadata?product=chrome#link"
              ltac:(vm_compute; reflexivity)
              (fun _ => eq_refl)) as (_ & H & _).
  exact H.
Defined.

(** ** More on the handlers *)

(** X11.  [apiMetadataHandler] answers any method other than GET and
    POST with 400 "Invalid HTTP method" and does nothing else: the body
    is not read, the cache is not consulted and no collaborator is
    called. *)
Theorem apiMetadataHandler_rejects_other_methods (env : Env) (s : State) :
  http.Method (req s) ≠ "GET" →
  http.Method (req s) ≠ "POST" →
  apiMetadataHandler env s =
  (Return,
   {| req := req s;
      w := http.Error "Invalid HTTP method" http.StatusBadRequest (w s);
      cache := cache s;
      log := log s |}).
Proof.
  intros Hget Hpost. unfold apiMetadataHandler. by run.
Qed.

Lemma apiMetadataHandler_rejects_other_methods_witness :
  rejected (apiMetadataHandler good_env (initial (triage_request "{}") ∅)) 400
    "Invalid HTTP method" [].
Proof.
  rewrite (apiMetadataHandler_rejects_other_methods good_env
             (initial (triage_request "{}") ∅)
             ltac:(vm_compute; discriminate) ltac:(vm_compute; discriminate)).
  vm_compute. done.
Defined.


(** X13.  The answer is 201 exactly when the request was authorized, the
    service client was obtained and the submission returned no error. *)
Theorem triage_created_iff_submitted (env : Env) (r : http.Request) :
  http.Code (w (run_triage env r).2) = Some http.StatusCreated ↔
  ∃ metadata user token clientID bot,
    authorized env r metadata user token clientID ∧
    GetGithubClientFromToken env "github-wpt-fyi-bot-token" = Ok bot ∧
    triage env bot (GitHubHandle user) (GithuhEmail user) metadata = None.
Proof.
  split.
  - run_all.
    intros _. eexists _, _, _, _, _.
    unfold authorized, passes_token_check, passes_secret, passes_session,
      passes_decode, passes_close, passes_read, passes_content_type,
      passes_method, read_outcome, close_outcome.
    repeat match goal with
           | H : ioutil.ReadAll _ = _ |- _ => rewrite H; simpl
           | H : Close _ = _ |- _ => rewrite H; simpl
           end.
    repeat (split || eexists); eauto using not_ne_eq, not_ne_eq_Z.
  - intros (metadata & user & token & clientID & bot & Hauth & Hbot & Hsub).
    split_passes. by run.
Qed.

(** X14.  The triage handler calls each collaborator at most once and in
    a fixed order, without retries: the calls of any run are an initial
    part of session lookup, client-id lookup, token check, membership
    check, service-client lookup, submission. *)
Theorem triage_calls_are_a_prefix (env : Env) (r : http.Request) :
  ∃ token clientID bot authorName authorEmail metadata,
    log (run_triage env r).2 `prefix_of`
    triage_calls token clientID bot authorName authorEmail metadata.
Proof.
  unfold triage_calls, authorization_calls.
  run_all.
  all: try (exists "", "", {| credential := "" |}, "", "", ∅; by eexists).
  all: eexists _, _, _, _, _, _; cbn.
  all: try (by eexists [_]).
  all: try (by eexists [_; _]).
  all: try (by eexists [_; _; _]).
  all: try (by eexists [_; _; _; _]).
  all: try (by eexists [_; _; _; _; _]).
  all: try (by eexists []).
  Unshelve.
  all: try exact "".
  all: try exact ∅.
  all: exact {| credential := "" |}.
Qed.

(** X15.  A PATCH request without a Content-Type header is answered 400
    with the content-type message, which then ends in the two characters
    of the format verb; nothing is read or called. *)
Theorem triage_missing_content_type (env : Env) (r : http.Request) :
  http.Method r = "PATCH" →
  http.Header r !! "Content-Type" = None →
  rejected (run_triage env r) 400 "Invalid content-type: %s" [] ∧
  req (run_triage env r).2 = r.
Proof.
  intros Hm Hh. unfold rejected. unfold_handlers; cbn.
  unfold http.Header_Get. rewrite Hh. repeat run_step.
Qed.

Lemma triage_missing_content_type_witness :
  rejected (run_triage good_env bare_request) 400 "Invalid content-type: %s" [].
Proof.
  apply (triage_missing_content_type good_env bare_request); reflexivity.
Defined.

(** ** More on the metadata handler *)

Lemma substring_all (s : string) : String.substring 0 (String.length s) s = s.
Proof. induction s as [|c s IH]; simpl; [done | by rewrite IH]. Qed.

Ltac split_link_query H :=
  unfold link_query, read_outcome, close_outcome in H;
  destruct H as [[? ?] | [? (? & ? & ? & ? & ? & ?)]]; simplify_eq.

(** X16.  Once the query stage is passed, the products are validated
    before anything is fetched: a parameter error is answered 400 with
    the parser's message, an empty product list 400 with "Missing
    required 'product' param", and in both cases no fetch is made. *)
Theorem ServeHTTP_validates_products
    (env : Env) (h : MetadataHandler) (r : http.Request) (link : AbstractLink) :
  link_query env r link →
  (∀ e, ParseProductOrBrowserParams env (http.URL_Query (http.RequestURL r)) = Err e →
     rejected (run_metadata env h r) 400 e []) ∧
  (ParseProductOrBrowserParams env (http.URL_Query (http.RequestURL r)) = Ok [] →
     rejected (run_metadata env h r) 400 "Missing required 'product' param" []).
Proof.
  intros Hq. split; [intros e He | intros He]; split_link_query Hq; run;
    by repeat (rewrite ?H2, ?H3; cbn).
Qed.

Lemma ServeHTTP_validates_products_witness :
  rejected (run_metadata good_env sample_handler no_product_request) 400
    "Missing required 'product' param" [].
Proof.
  destruct (ServeHTTP_validates_products good_env sample_handler no_product_request
              {| Pattern := "" |}) as [_ H].
  - left. split; [vm_compute; discriminate | reflexivity].
  - apply H. reflexivity.
Defined.

(** X17.  A failure of the fetch or of the serialization is answered 500
    with the underlying error text; the fetch is made once, for the
    parsed products and the handler's archive URL, and what is
    serialized is the fetched mapping for a GET and the filtered mapping
    for a POST. *)
Theorem ServeHTTP_upstream_failures
    (env : Env) (h : MetadataHandler) (r : http.Request) (link : AbstractLink)
    (products : list string) :
  link_query env r link →
  ParseProductOrBrowserParams env (http.URL_Query (http.RequestURL r)) = Ok products →
  products ≠ [] →
  (∀ e, GetMetadataResponseOnProducts env products (metadataURL h) = Err e →
     rejected (run_metadata env h r) 500 e
       [CallGetMetadataResponseOnProducts products (metadataURL h)]) ∧
  (∀ m e, GetMetadataResponseOnProducts env products (metadataURL h) = Ok m →
     json_Marshal env
       (if decide (http.Method r = "POST") then filterMetadata link m else m) = Err e →
     rejected (run_metadata env h r) 500 e
       [CallGetMetadataResponseOnProducts products (metadataURL h)]).
Proof.
  intros Hq Hp Hne.
  assert (length products ≠ 0%nat) as Hlen by by destruct products.
  split; [intros e He | intros m e Hm He]; split_link_query Hq;
    unfold_handlers; cbn; repeat run_step;
    repeat match goal with
           | H : Args _ = _ |- _ => rewrite H; cbn
           end;
    repeat run_step; done.
Qed.

Lemma ServeHTTP_upstream_failures_witness :
  rejected (run_metadata no_archive_env sample_handler get_request) 500
    "Get: context deadline exceeded"
    [CallGetMetadataResponseOnProducts ["chrome"] "https://example.com/metadata.zip"].
Proof.
  destruct (ServeHTTP_upstream_failures no_archive_env sample_handler get_request
              {| Pattern := "" |} ["chrome"]) as [H _].
  - left. split; [vm_compute; discriminate | reflexivity].
  - reflexivity.
  - discriminate.
  - apply H. reflexivity.
Defined.

(** X18.  When everything succeeds and the connection takes all the
    bytes, the answer is 200 and its body is the serialization of the
    whole fetched mapping for a GET and of the mapping filtered by the
    body's link atom for a POST; the fetch is the only call. *)
Theorem ServeHTTP_success
    (env : Env) (h : MetadataHandler) (r : http.Request) (link : AbstractLink)
    (products : list string) (m : MetadataResults) (marshalled : string) :
  link_query env r link →
  ParseProductOrBrowserParams env (http.URL_Query (http.RequestURL r)) = Ok products →
  products ≠ [] →
  GetMetadataResponseOnProducts env products (metadataURL h) = Ok m →
  json_Marshal env
    (if decide (http.Method r = "POST") then filterMetadata link m else m)
    = Ok marshalled →
  connection_Write env marshalled = (String.length marshalled, None) →
  (run_metadata env h r).1 = Continue tt ∧
  w (run_metadata env h r).2 =
    {| http.Code := Some http.StatusOK; http.Written := marshalled |} ∧
  log (run_metadata env h r).2 =
    [CallGetMetadataResponseOnProducts products (metadataURL h)].
Proof.
  intros Hq Hp Hne Hm Hj Hw.
  assert (length products ≠ 0%nat) as Hlen by by destruct products.
  split_link_query Hq;
    unfold_handlers; cbn; repeat run_step;
    repeat match goal with
           | H : Args _ = _ |- _ => rewrite H; cbn
           end;
    repeat run_step; unfold http.Write; cbn; by rewrite substring_all.
Qed.

Lemma ServeHTTP_success_witness :
  w (run_metadata good_env sample_handler (post_request (good_body "link"))).2 =
  {| http.Code := Some 200%Z; http.Written := "{...}" |}.
Proof.
  destruct (ServeHTTP_success good_env sample_handler
              (post_request (good_body "link")) sample_link ["chrome"]
              sample_metadata "{...}") as (_ & H & _).
  - right. split; [reflexivity |].
    exists "link", {| Args := [LinkQuery sample_link] |}. by vm_compute.
  - reflexivity.
  - discriminate.
  - reflexivity.
  - by vm_compute.
  - reflexivity.
  - exact H.
Defined.

(** X19.  A failed write cannot change the status any more: when
    [w.Write] reports an error the status line 200 is already written,
    so the [http.Error] with 500 that follows leaves the status at 200;
    the handler returns after its one fetch, and what was sent begins
    with the bytes of the serialization that got through. *)
Theorem ServeHTTP_write_failure_keeps_status
    (env : Env) (h : MetadataHandler) (r : http.Request) (link : AbstractLink)
    (products : list string) (m : MetadataResults) (marshalled e : string) (n : nat) :
  link_query env r link →
  ParseProductOrBrowserParams env (http.URL_Query (http.RequestURL r)) = Ok products →
  products ≠ [] →
  GetMetadataResponseOnProducts env products (metadataURL h) = Ok m →
  json_Marshal env
    (if decide (http.Method r = "POST") then filterMetadata link m else m)
    = Ok marshalled →
  connection_Write env marshalled = (n, Some e) →
  (run_metadata env h r).1 = Return ∧
  http.Code (w (run_metadata env h r).2) = Some http.StatusOK ∧
  HasPrefix (http.Written (w (run_metadata env h r).2))
    (String.substring 0 n marshalled) = true ∧
  log (run_metadata env h r).2 =
    [CallGetMetadataResponseOnProducts products (metadataURL h)].
Proof.
  intros Hq Hp Hne Hm Hj Hw.
  assert (length products ≠ 0%nat) as Hlen by by destruct products.
  assert (∀ rest, HasPrefix (String.substring 0 n marshalled +:+ rest)
                    (String.substring 0 n marshalled) = true) as Hpre.
  { intros rest. apply HasPrefix_spec. by exists rest. }
  split_link_query Hq;
    unfold_handlers; cbn; repeat run_step;
    repeat match goal with
           | H : Args _ = _ |- _ => rewrite H; cbn
           end;
    repeat run_step; split_and!; try done; apply Hpre.
Qed.

Lemma ServeHTTP_write_failure_keeps_status_witness :
  http.Code (w (run_metadata broken_connection_env sample_handler get_request).2) =
  Some 200%Z.
Proof.
  destruct (ServeHTTP_write_failure_keeps_status broken_connection_env sample_handler
              get_request {| Pattern := "" |} ["chrome"] sample_metadata
              "{...very long...}" "write: broken pipe" 10) as (_ & H & _).
  - left. split; [vm_compute; discriminate | reflexivity].
  - reflexivity.
  - discriminate.
  - reflexivity.
  - reflexivity.
  - reflexivity.
  - exact H.
Defined.

(** X20.  Unless the method is POST the metadata handler does not touch
    the request: the body is left unread, and with any other body
    attached the run gives the same control outcome, response and
    calls. *)
Theorem ServeHTTP_ignores_body_unless_POST
    (env : Env) (h : MetadataHandler) (r : http.Request) (b : ReadCloser) :
  http.Method r ≠ "POST" →
  req (run_metadata env h r).2 = r ∧
  (run_metadata env h (with_Body r b)).1 = (run_metadata env h r).1 ∧
  w (run_metadata env h (with_Body r b)).2 = w (run_metadata env h r).2 ∧
  log (run_metadata env h (with_Body r b)).2 = log (run_metadata env h r).2.
Proof.
  intros Hm. split.
  - unfold_handlers; cbn. destruct (decide (http.Method r = "POST")); [done |].
    cbn. repeat (case_match; cbn in *; simplify_eq/=; try done).
  - by apply ServeHTTP_observes.
Qed.

Lemma ServeHTTP_ignores_body_unless_POST_witness :
  w (run_metadata good_env sample_handler
       (with_Body get_request (broken_body "junk"))).2 =
  w (run_metadata good_env sample_handler get_request).2.
Proof.
  destruct (ServeHTTP_ignores_body_unless_POST good_env sample_handler get_request
              (broken_body "junk") ltac:(vm_compute; discriminate))
    as (_ & _ & H & _).
  exact H.
Defined.

(** X21.  Every run of the metadata handler answers with status 200, 400
    or 500 and never panics; it fetches the metadata at most once, and a
    200 is given only after a fetch. *)
Theorem ServeHTTP_always_answers (env : Env) (h : MetadataHandler) (r : http.Request) :
  (∀ msg, (run_metadata env h r).1 ≠ Panic msg) ∧
  (http.Code (w (run_metadata env h r).2) = Some http.StatusOK ∨
   http.Code (w (run_metadata env h r).2) = Some http.StatusBadRequest ∨
   http.Code (w (run_metadata env h r).2) = Some http.StatusInternalServerError) ∧
  (length (filter (λ e, is_fetch e = true) (log (run_metadata env h r).2)) ≤ 1)%nat ∧
  (http.Code (w (run_metadata env h r).2) = Some http.StatusOK →
   fetches (run_metadata env h r) = true).
Proof.
  unfold fetches. run_all.
  all: split_and!; cbn; try done; auto; try lia.
Qed.
